(** * picflow-ui: the format-aware image pipeline

    A shallow embedding of the TypeScript utilities of the repository
    ([imageConverter.ts], [imageResizer.ts], [imageCompressor.ts],
    [backgroundRemover.ts] and the compression table of
    [ImageConverter.vue]) together with the properties the specification
    states about them.

    JavaScript numbers are IEEE 754 binary64 values; they are modelled by
    Rocq's primitive floats, whose operations are the same binary64
    operations with round-to-nearest-even.  Strings are modelled by
    [string], a sequence of 8-bit characters; [toLowerCase] and the [/i]
    flag are modelled on the ASCII letters.  Releasing object URLs has no
    observable result here and is left out. *)

From Stdlib Require Import ZArith List String Ascii Bool Floats Lia.
From Stdlib Require Import DecimalString.
Import ListNotations.

Set Warnings "-inexact-float,-register-all".
Local Open Scope string_scope.

(** ** JavaScript primitives *)

Module JS.

Definition number := float.
Bind Scope float_scope with number.

(** [ToBoolean] on a number: [0], [-0] and [NaN] are falsy. *)
Definition truthy (x : number) : bool :=
  negb (PrimFloat.eqb x 0 || PrimFloat.is_nan x).

(** [ToBoolean] on an optional number field; [undefined] is falsy. *)
Definition truthy_opt (x : option number) : bool :=
  match x with
  | Some v => truthy v
  | None => false
  end.

(** [x || d] for an optional number field [x] and a number [d]. *)
Definition or_default (x : option number) (d : number) : number :=
  match x with
  | Some v => if truthy v then v else d
  | None => d
  end.

(** [ToBoolean] on a string: only the empty string is falsy. *)
Definition truthy_str (s : string) : bool :=
  match s with
  | EmptyString => false
  | String _ _ => true
  end.

Definition of_Z (z : Z) : number :=
  match z with
  | Z0 => 0%float
  | Zpos _ => PrimFloat.of_uint63 (Uint63.of_Z z)
  | Zneg p => PrimFloat.opp (PrimFloat.of_uint63 (Uint63.of_Z (Zpos p)))
  end.

(** [Math.round]: the integral number closest to [x], ties going towards
    +infinity; [NaN], the infinities and the zeros are returned unchanged,
    and a result of zero keeps the sign of [x].  The value of a finite
    float is [(-1)^s * m * 2^e]; for [e < 0] its magnitude is below
    [2^53], and [floor (x + 1/2)] is computed exactly on integers. *)
Definition Math_round (x : number) : number :=
  match Prim2SF x with
  | S754_finite s m e =>
      if (0 <=? e)%Z then x
      else
        let v := if s then Zneg m else Zpos m in
        let n := ((2 * v + 2 ^ (- e)) / 2 ^ (1 - e))%Z in
        if (n =? 0)%Z then (if s then PrimFloat.neg_zero else PrimFloat.zero)
        else of_Z n
  | _ => x
  end.

(** [Math.min] on two arguments. *)
Definition Math_min (a b : number) : number :=
  if PrimFloat.is_nan a || PrimFloat.is_nan b then PrimFloat.nan
  else if PrimFloat.ltb a b then a
  else if PrimFloat.ltb b a then b
  else if PrimFloat.get_sign a then a else b.

(** [ToUint32], the conversion to a Web IDL [unsigned long]: [NaN] and the
    infinities give 0; a finite number is truncated towards zero and taken
    modulo [2^32]. *)
Definition ToUint32 (x : number) : Z :=
  match Prim2SF x with
  | S754_finite s m e =>
      let magnitude :=
        if (0 <=? e)%Z then (Zpos m * 2 ^ e)%Z else (Zpos m / 2 ^ (- e))%Z in
      ((if s then - magnitude else magnitude) mod 2 ^ 32)%Z
  | _ => 0%Z
  end.

(** The integer a float denotes, when it denotes one. *)
Definition to_integer (x : number) : option Z :=
  match Prim2SF x with
  | S754_zero _ => Some 0%Z
  | S754_finite s m e =>
      let sg := fun z => if s then Z.opp z else z in
      if (0 <=? e)%Z then Some (sg (Zpos m * 2 ^ e)%Z)
      else if (Zpos m mod 2 ^ (- e) =? 0)%Z then Some (sg (Zpos m / 2 ^ (- e))%Z)
      else None
  | _ => None
  end.

Definition string_of_Z (z : Z) : string :=
  NilZero.string_of_int (Z.to_int z).

(** [Number::toString] as used by template literals.  It prints the
    shortest digits that read back as [x].  Below [2^53] neighbouring
    integers are distinct floats, so an integer of that magnitude prints
    as its own decimal digits; from [2^53] up the shortest digits may
    denote another integer, and their printing, like that of the finite
    numbers that are no integers, belongs to the runtime and is the
    parameter [frac]. *)
Definition toString (frac : number -> string) (x : number) : string :=
  match to_integer x with
  | Some z => if (Z.abs z <? 2 ^ 53)%Z then string_of_Z z else frac x
  | None =>
      if PrimFloat.is_nan x then "NaN"
      else if PrimFloat.eqb x PrimFloat.infinity then "Infinity"
      else if PrimFloat.eqb x PrimFloat.neg_infinity then "-Infinity"
      else frac x
  end.

(** [String.prototype.toLowerCase] on ASCII. *)
Definition lower_ascii (c : ascii) : ascii :=
  let n := nat_of_ascii c in
  if (65 <=? n)%nat && (n <=? 90)%nat then ascii_of_nat (n + 32) else c.

Fixpoint toLowerCase (s : string) : string :=
  match s with
  | EmptyString => EmptyString
  | String c r => String (lower_ascii c) (toLowerCase r)
  end.

Definition startsWith (s p : string) : bool := String.prefix p s.

(** [s.endsWith(suf)]: [s] is [suf], or what follows its first character
    ends with [suf]. *)
Fixpoint endsWith (s suf : string) : bool :=
  String.eqb s suf ||
  match s with
  | EmptyString => false
  | String _ r => endsWith r suf
  end.

(** [s.includes(p)]. *)
Fixpoint includes (s p : string) : bool :=
  String.prefix p s ||
  match s with
  | EmptyString => false
  | String _ r => includes r p
  end.

End JS.

(** ** The regular expressions of the file-name rules *)

Module Regex.

Definition dot : ascii := "."%char.
Definition slash : ascii := "/"%char.

(** Every character of [s] satisfies [p]. *)
Fixpoint forallb_str (p : ascii -> bool) (s : string) : bool :=
  match s with
  | EmptyString => true
  | String c r => p c && forallb_str p r
  end.

(** Splits [s] at its last character satisfying [sep]:
    [Some (before, c, after)] where [c] is that character and [after]
    holds no such character. *)
Fixpoint split_last (sep : ascii -> bool) (s : string)
  : option (string * ascii * string) :=
  match s with
  | EmptyString => None
  | String c r =>
      match split_last sep r with
      | Some (b, d, a) => Some (String c b, d, a)
      | None => if sep c then Some (EmptyString, c, r) else None
      end
  end.

(** [s.replace(/\.[^.]+$/, by)]: the match is the last dot together with
    the non-empty, dot-free rest of the string; without a match the string
    is returned as it is. *)
Definition replace_ext (s by_ : string) : string :=
  match split_last (Ascii.eqb dot) s with
  | Some (stem, _, String _ _) => stem ++ by_
  | _ => s
  end.

(** [s.replace(/\.[^/.]+$/, by)].  A match starts at a dot and runs to the
    end through characters that are neither dots nor slashes, so it starts
    at the last character that is a dot or a slash, which has to be a
    dot, and the rest is not empty. *)
Definition replace_ext_noslash (s by_ : string) : string :=
  match split_last (fun c => Ascii.eqb dot c || Ascii.eqb slash c) s with
  | Some (stem, c, String _ _) => if Ascii.eqb dot c then stem ++ by_ else s
  | _ => s
  end.

(** [s.replace(/<suffix>$/i, by)] for a literal lower-case ASCII suffix:
    the match is the end of the string, compared without case. *)
Definition replace_suffix_ci (s suffix by_ : string) : string :=
  if JS.endsWith (JS.toLowerCase s) suffix
  then String.substring 0 (String.length s - String.length suffix) s ++ by_
  else s.

(** The string holds no dot. *)
Definition no_dot (s : string) : bool :=
  forallb_str (fun c => negb (Ascii.eqb dot c)) s.

(** The string holds neither a dot nor a slash. *)
Definition no_dot_or_slash (s : string) : bool :=
  forallb_str (fun c => negb (Ascii.eqb dot c || Ascii.eqb slash c)) s.

End Regex.


(** ** The browser: blobs, images, drawing surfaces and the collaborators

    Everything the utilities obtain from the browser or from a third-party
    library is a field of [Platform].  A drawing surface records the
    operations applied to it, in order; what the encoder is given is the
    surface with that history. *)

Module Dom.

Import JS.

(** A [Blob]: an opaque payload, its byte size and its media type. *)
Record Blob := { payload : N; size : number; type : string }.

(** A [File] is a [Blob] with a name. *)
Record File := { name : string; as_blob : Blob }.

(** A decoded [HTMLImageElement]. *)
Record Image := { width : number; height : number; bitmap : N }.

Record Viewport := { vp_width : number; vp_height : number; vp_scale : number }.

Definition PdfDocument := N.
Definition PdfPage := N.

Inductive DrawOp :=
| SetSmoothing (enabled : bool) (quality : string)
| FillRect (fillStyle : string) (x y w h : number)
| DrawImage (img : Image) (dx dy : number) (dsize : option (number * number))
| RenderPage (page : PdfPage) (viewport : Viewport)
| PutImageData (sx sy sw sh : number) (surface : list DrawOp) (dx dy : number)
| DrawCanvas (w h : number) (surface : list DrawOp) (dx dy : number).

Record Canvas := { cv_width : number; cv_height : number; ops : list DrawOp }.

(** [document.createElement('canvas')]. *)
Definition createCanvas : Canvas :=
  {| cv_width := 300; cv_height := 150; ops := [] |}.

(** [width] and [height] of a canvas are [unsigned long] attributes: the
    assigned number is converted by [ToUint32], and a value above
    [2147483647] is replaced by the default of the attribute (300 for the
    width, 150 for the height). *)
Definition canvas_dimension (default : number) (x : number) : number :=
  let n := ToUint32 x in
  if (n <=? 2147483647)%Z then of_Z n else default.

(** Assigning a dimension clears the surface. *)
Definition set_width (w : number) (c : Canvas) : Canvas :=
  {| cv_width := canvas_dimension 300 w; cv_height := cv_height c; ops := [] |}.

Definition set_height (h : number) (c : Canvas) : Canvas :=
  {| cv_width := cv_width c; cv_height := canvas_dimension 150 h; ops := [] |}.

Definition draw (op : DrawOp) (c : Canvas) : Canvas :=
  {| cv_width := cv_width c; cv_height := cv_height c; ops := (ops c ++ [op])%list |}.

(** A thrown value: an [Error] with its message, or something else. *)
Inductive Thrown :=
| ErrorObj (message : string)
| NotAnError.

(** How a promise ends: fulfilled, rejected, or never settled. *)
Inductive Outcome (A : Type) :=
| Resolved (a : A)
| Rejected (e : Thrown)
| Pending.
Arguments Resolved {A} a.
Arguments Rejected {A} e.
Arguments Pending {A}.

(** What [heic2any] resolves with: a blob or an array of blobs. *)
Inductive HeicOutput :=
| OneBlob (b : Blob)
| ManyBlobs (l : list Blob).

(** The options object handed to [imageCompression]. *)
Record CompressorConfig := {
  cfg_maxSizeMB : number;
  cfg_maxWidthOrHeight : option number;
  cfg_useWebWorker : bool;
  cfg_initialQuality : number;
  cfg_preserveExif : bool
}.

Record Platform := {
  (* [img.src = URL.createObjectURL(blob)]: [onload] or [onerror] *)
  loadImage : Blob -> option Image;
  (* [reader.readAsText(file)]: [onload] or [onerror] *)
  readAsText : File -> option string;
  (* [btoa]: [None] when it throws *)
  btoa : string -> option string;
  (* [img.src = 'data:image/svg+xml;base64,...'] *)
  loadSvg : string -> option Image;
  (* [canvas.getContext('2d')] is not [null] *)
  getContext2d : Canvas -> bool;
  (* [canvas.toBlob(cb, type, quality)]: the blob given to [cb] *)
  toBlob : Canvas -> string -> number -> option Blob;
  createObjectURL : Blob -> string;
  heic2any : File -> string -> number -> Outcome HeicOutput;
  (* [file.arrayBuffer()] and [pdfjsLib.getDocument] *)
  getDocument : File -> Outcome PdfDocument;
  getPage : PdfDocument -> number -> Outcome PdfPage;
  getViewport : PdfPage -> number -> Viewport;
  renderPage : PdfPage -> Viewport -> Outcome unit;
  imageCompression : File -> CompressorConfig -> Outcome File;
  removeBackground : File -> Outcome Blob;
  (* [Number::toString] outside the integers *)
  numberToString : number -> string
}.

(** A call to a collaborator that decodes, renders or encodes. *)
Inductive Call :=
| ToBlob (c : Canvas) (mime : string) (quality : number)
| Heic2any (f : File) (toType : string) (quality : number)
| GetPage (doc : PdfDocument) (pageNumber : number)
| ImageCompression (f : File) (cfg : CompressorConfig)
| RemoveBackground (f : File).

(** An asynchronous computation: the calls it made and how it ended. *)
Definition Async (A : Type) : Type := (list Call * Outcome A)%type.

Definition resolve {A} (a : A) : Async A := ([], Resolved a).
Definition reject {A} (message : string) : Async A := ([], Rejected (ErrorObj message)).
Definition perform {A} (c : Call) (r : Outcome A) : Async A := ([c], r).
Definition settle {A} (r : Outcome A) : Async A := ([], r).

Definition bind {A B} (m : Async A) (k : A -> Async B) : Async B :=
  match m with
  | (l, Resolved a) => let (l', r) := k a in ((l ++ l')%list, r)
  | (l, Rejected e) => (l, Rejected e)
  | (l, Pending) => (l, Pending)
  end.

(** [try { m } catch (error) { throw new Error(prefix + ...) }] with the
    message [error instanceof Error ? error.message : 'Unknown error']. *)
Definition rethrow {A} (prefix : string) (m : Async A) : Async A :=
  match m with
  | (l, Rejected (ErrorObj msg)) => (l, Rejected (ErrorObj (prefix ++ msg)))
  | (l, Rejected NotAnError) => (l, Rejected (ErrorObj (prefix ++ "Unknown error")))
  | _ => m
  end.

Definition calls {A} (m : Async A) : list Call := fst m.
Definition outcome {A} (m : Async A) : Outcome A := snd m.

Declare Scope async_scope.
Delimit Scope async_scope with async.
Notation "x <- m ;; k" := (bind m (fun x => k))
  (at level 61, m at next level, right associativity) : async_scope.

End Dom.

(** ** imageConverter.ts *)

Module Converter.

Import JS Dom.
Local Open Scope async_scope.

Inductive Format := png | jpg | jpeg | webp.

Definition format_str (f : Format) : string :=
  match f with
  | png => "png"
  | jpg => "jpg"
  | jpeg => "jpeg"
  | webp => "webp"
  end.

(** [format === 'jpg' || format === 'jpeg'] *)
Definition is_jpg (f : Format) : bool :=
  match f with
  | jpg | jpeg => true
  | _ => false
  end.

(** [format === 'jpeg' ? 'jpg' : format] *)
Definition extension (f : Format) : string :=
  match f with
  | jpeg => "jpg"
  | _ => format_str f
  end.

Record ConversionOptions := {
  format : Format;
  quality : option number;
  width : option number;
  height : option number;
  maintainAspectRatio : option bool;
  scale : option number
}.

(** The field [format] of the result is [r_format] here. *)
Record ConversionResult := {
  blob : Blob;
  url : string;
  filename : string;
  originalSize : number;
  newSize : number;
  r_format : Format
}.

(** The value of an optional number field in arithmetic: [undefined]
    converts to [NaN]. *)
Definition num (x : option number) : number :=
  match x with
  | Some v => v
  | None => PrimFloat.nan
  end.

(** [canvas.toBlob] with the callback that rejects on [null]. *)
Definition encode (P : Platform) (canvas : Canvas) (mime : string)
    (q : number) (failure : string) : Async Blob :=
  perform (ToBlob canvas mime q)
    match toBlob P canvas mime q with
    | Some b => Resolved b
    | None => Rejected (ErrorObj failure)
    end.

Definition convertSvgToRaster (P : Platform) (file : File)
    (options : ConversionOptions) : Async ConversionResult :=
  match readAsText P file with
  | None => reject "Failed to read file"
  | Some svgContent =>
    match btoa P svgContent with
    | None => settle Pending
    | Some encoded =>
      match loadSvg P ("data:image/svg+xml;base64," ++ encoded) with
      | None => reject "Failed to load SVG"
      | Some img =>
        let scale := or_default (scale options) 2 in
        let width := or_default (width options) (Dom.width img * scale) in
        let height := or_default (height options) (Dom.height img * scale) in
        let canvas := set_height height (set_width width createCanvas) in
        if negb (getContext2d P canvas) then reject "Failed to get canvas context"
        else
          let canvas :=
            if is_jpg (format options)
            then draw (FillRect "#FFFFFF" 0 0 width height) canvas
            else canvas in
          let canvas := draw (DrawImage img 0 0 (Some (width, height))) canvas in
          blob <- encode P canvas ("image/" ++ format_str (format options))
                    (or_default (quality options) 0.92) "Failed to create blob" ;;
          let newFilename :=
            Regex.replace_suffix_ci (name file) ".svg"
              ("." ++ format_str (format options)) in
          resolve {| blob := blob;
                     url := createObjectURL P blob;
                     filename := newFilename;
                     originalSize := size (as_blob file);
                     newSize := size blob;
                     r_format := format options |}
      end
    end
  end.

(** The width and height [convertRasterFormat] gives its canvas. *)
Definition rasterDimensions (imgWidth imgHeight : number)
    (options : ConversionOptions) : number * number :=
  let width := or_default (width options) imgWidth in
  let height := or_default (height options) imgHeight in
  if match maintainAspectRatio options with Some true => true | _ => false end
     && (truthy_opt (Converter.width options) || truthy_opt (Converter.height options))
  then
    let aspectRatio := (imgWidth / imgHeight)%float in
    if truthy_opt (Converter.width options) && negb (truthy_opt (Converter.height options))
    then (width, Math_round (num (Converter.width options) / aspectRatio))
    else if truthy_opt (Converter.height options) && negb (truthy_opt (Converter.width options))
    then (Math_round (num (Converter.height options) * aspectRatio), height)
    else (width, height)
  else (width, height).

Definition convertRasterFormat (P : Platform) (file : File)
    (options : ConversionOptions) : Async ConversionResult :=
  match loadImage P (as_blob file) with
  | None => reject "Failed to load image"
  | Some img =>
    let (width, height) := rasterDimensions (Dom.width img) (Dom.height img) options in
    let canvas := set_height height (set_width width createCanvas) in
    if negb (getContext2d P canvas) then reject "Failed to get canvas context"
    else
      let canvas :=
        if is_jpg (format options)
        then draw (FillRect "#FFFFFF" 0 0 width height) canvas
        else canvas in
      let canvas := draw (DrawImage img 0 0 (Some (width, height))) canvas in
      blob <- encode P canvas ("image/" ++ format_str (format options))
                (or_default (quality options) 0.92) "Failed to create blob" ;;
      let ext := extension (format options) in
      let newFilename := Regex.replace_ext (name file) ("." ++ ext) in
      resolve {| blob := blob;
                 url := createObjectURL P blob;
                 filename := newFilename;
                 originalSize := size (as_blob file);
                 newSize := size blob;
                 r_format := format options |}
  end.

(** The [try] block of [convertPdfToRaster] up to the promise it returns:
    the first page rendered on a canvas. *)
Definition renderFirstPage (P : Platform) (file : File)
    (options : ConversionOptions) : Async Canvas :=
  pdf <- settle (getDocument P file) ;;
  page <- perform (GetPage pdf 1) (getPage P pdf 1) ;;
  let scale := or_default (scale options) 2 in
  let viewport := getViewport P page scale in
  let canvas := createCanvas in
  if negb (getContext2d P canvas) then reject "Failed to get canvas context"
  else
    let canvas := set_height (vp_height viewport) (set_width (vp_width viewport) canvas) in
    _ <- settle (renderPage P page viewport) ;;
    resolve (draw (RenderPage page viewport) canvas).

(** The white background of the PDF path: the pixels of the canvas are
    read, a second canvas is filled with white, the pixels are put on it,
    and it is drawn back on the cleared canvas. *)
Definition whiteBackground (P : Platform) (canvas : Canvas) : Canvas :=
  let w := cv_width canvas in
  let h := cv_height canvas in
  let imageData := ops canvas in
  let tempCanvas := set_height h (set_width w createCanvas) in
  if getContext2d P tempCanvas then
    let tempCanvas := draw (FillRect "#FFFFFF" 0 0 w h) tempCanvas in
    let tempCanvas := draw (PutImageData 0 0 w h imageData 0 0) tempCanvas in
    let canvas := set_height (cv_height tempCanvas) (set_width (cv_width tempCanvas) canvas) in
    draw (DrawCanvas (cv_width tempCanvas) (cv_height tempCanvas) (ops tempCanvas) 0 0) canvas
  else canvas.

(** The promise is returned from the [try] block without [await], so its
    rejection is not rewritten by the [catch]. *)
Definition convertPdfToRaster (P : Platform) (file : File)
    (options : ConversionOptions) : Async ConversionResult :=
  canvas <- rethrow "Failed to convert PDF: " (renderFirstPage P file options) ;;
  let canvas := if is_jpg (format options) then whiteBackground P canvas else canvas in
  blob <- encode P canvas ("image/" ++ format_str (format options))
            (or_default (quality options) 0.92) "Failed to create blob from PDF" ;;
  let newFilename :=
    Regex.replace_suffix_ci (name file) ".pdf" ("." ++ format_str (format options)) in
  resolve {| blob := blob;
             url := createObjectURL P blob;
             filename := newFilename;
             originalSize := size (as_blob file);
             newSize := size blob;
             r_format := format options |}.

Definition convertHeicToRaster (P : Platform) (file : File)
    (options : ConversionOptions) : Async ConversionResult :=
  rethrow "Failed to convert HEIC: "
    (let toType := "image/" ++ format_str (format options) in
     let q := or_default (quality options) 0.92 in
     convertedBlob <- perform (Heic2any file toType q) (heic2any P file toType q) ;;
     let blob :=
       match convertedBlob with
       | OneBlob b => Some b
       | ManyBlobs l => List.hd_error l
       end in
     match blob with
     | None => reject "Failed to convert HEIC file"
     | Some blob =>
       let newFilename :=
         Regex.replace_suffix_ci (name file) ".heic"
           ("." ++ format_str (format options)) in
       resolve {| blob := blob;
                  url := createObjectURL P blob;
                  filename := newFilename;
                  originalSize := size (as_blob file);
                  newSize := size blob;
                  r_format := format options |}
     end).

Definition convertImage (P : Platform) (file : File)
    (options : ConversionOptions) : Async ConversionResult :=
  let fileType := toLowerCase (type (as_blob file)) in
  let fileName := toLowerCase (name file) in
  if endsWith fileName ".pdf" || String.eqb fileType "application/pdf"
  then convertPdfToRaster P file options
  else if endsWith fileName ".heic" || endsWith fileName ".heif"
          || String.eqb fileType "image/heic" || String.eqb fileType "image/heif"
  then convertHeicToRaster P file options
  else if String.eqb fileType "image/svg+xml" || endsWith fileName ".svg"
  then convertSvgToRaster P file options
  else if startsWith fileType "image/"
  then convertRasterFormat P file options
  else reject ("Unsupported file type: "
                 ++ (if truthy_str fileType then fileType else "unknown")).

Definition getSupportedOutputFormats (file : File) : list string :=
  let fileType := toLowerCase (type (as_blob file)) in
  let fileName := toLowerCase (name file) in
  if endsWith fileName ".pdf" || String.eqb fileType "application/pdf"
  then ["png"; "jpg"; "webp"]
  else if endsWith fileName ".heic" || endsWith fileName ".heif"
          || String.eqb fileType "image/heic" || String.eqb fileType "image/heif"
  then ["png"; "jpg"; "webp"]
  else if String.eqb fileType "image/svg+xml" || endsWith fileName ".svg"
  then ["png"; "jpg"; "webp"]
  else if startsWith fileType "image/"
  then ["png"; "jpg"; "webp"]
  else [].

End Converter.

(** ** imageResizer.ts *)

Module Resizer.

Import JS Dom.
Import Converter (Format, png, jpg, jpeg, webp, format_str, extension, is_jpg, num, encode).
Local Open Scope async_scope.

Record ResizeOptions := {
  width : option number;
  height : option number;
  maintainAspectRatio : option bool;
  quality : option number;
  format : option Format
}.

Record ResizeResult := {
  blob : Blob;
  url : string;
  filename : string;
  originalSize : number;
  newSize : number;
  originalWidth : number;
  originalHeight : number;
  newWidth : number;
  newHeight : number
}.

(** [targetWidth] and [targetHeight] as [resizeImage] computes them from
    the dimensions of the decoded image. *)
Definition targetDimensions (originalWidth originalHeight : number)
    (options : ResizeOptions) : number * number :=
  let targetWidth := or_default (width options) originalWidth in
  let targetHeight := or_default (height options) originalHeight in
  if match maintainAspectRatio options with Some false => false | _ => true end
  then
    let aspectRatio := (originalWidth / originalHeight)%float in
    if truthy_opt (width options) && negb (truthy_opt (height options))
    then (targetWidth, Math_round (num (width options) / aspectRatio))
    else if truthy_opt (height options) && negb (truthy_opt (width options))
    then (Math_round (num (height options) * aspectRatio), targetHeight)
    else if truthy_opt (width options) && truthy_opt (height options)
    then
      let widthRatio := (num (width options) / originalWidth)%float in
      let heightRatio := (num (height options) / originalHeight)%float in
      let ratio := Math_min widthRatio heightRatio in
      (Math_round (originalWidth * ratio), Math_round (originalHeight * ratio))
    else (targetWidth, targetHeight)
  else (targetWidth, targetHeight).

Definition getFormatFromFile (file : File) : Format :=
  let type := toLowerCase (type (as_blob file)) in
  if includes type "png" then png
  else if includes type "webp" then webp
  else jpg.

Definition resizeImage (P : Platform) (file : File)
    (options : ResizeOptions) : Async ResizeResult :=
  match loadImage P (as_blob file) with
  | None => reject "Failed to load image"
  | Some img =>
    let originalWidth := Dom.width img in
    let originalHeight := Dom.height img in
    let (targetWidth, targetHeight) :=
      targetDimensions originalWidth originalHeight options in
    let canvas := set_height targetHeight (set_width targetWidth createCanvas) in
    if negb (getContext2d P canvas) then reject "Failed to get canvas context"
    else
      let canvas := draw (SetSmoothing true "high") canvas in
      let outputFormat :=
        match format options with
        | Some f => f
        | None => getFormatFromFile file
        end in
      let canvas :=
        if is_jpg outputFormat
        then draw (FillRect "#FFFFFF" 0 0 targetWidth targetHeight) canvas
        else canvas in
      let canvas :=
        draw (DrawImage img 0 0 (Some (targetWidth, targetHeight))) canvas in
      blob <- encode P canvas ("image/" ++ format_str outputFormat)
                (or_default (quality options) 0.92) "Failed to create blob" ;;
      let ext := extension outputFormat in
      let newFilename :=
        Regex.replace_ext (name file)
          ("_" ++ toString (numberToString P) targetWidth ++ "x"
               ++ toString (numberToString P) targetHeight ++ "." ++ ext) in
      resolve {| blob := blob;
                 url := createObjectURL P blob;
                 filename := newFilename;
                 originalSize := size (as_blob file);
                 newSize := size blob;
                 originalWidth := originalWidth;
                 originalHeight := originalHeight;
                 newWidth := targetWidth;
                 newHeight := targetHeight |}
  end.

Definition supportedTypes : list string :=
  ["image/jpeg"; "image/jpg"; "image/png"; "image/webp"].

Definition canResize (file : File) : bool :=
  existsb (String.eqb (toLowerCase (type (as_blob file)))) supportedTypes.

(** An entry of [RESIZE_PRESETS]. *)
Module ResizePreset.
Record t := { name : string; width : option number; height : option number }.
End ResizePreset.

Definition RESIZE_PRESETS : list ResizePreset.t :=
  [ {| ResizePreset.name := "Instagram Post";
       ResizePreset.width := Some 1080%float; ResizePreset.height := Some 1080%float |};
    {| ResizePreset.name := "Instagram Story";
       ResizePreset.width := Some 1080%float; ResizePreset.height := Some 1920%float |};
    {| ResizePreset.name := "Facebook Post";
       ResizePreset.width := Some 1200%float; ResizePreset.height := Some 630%float |};
    {| ResizePreset.name := "Twitter Post";
       ResizePreset.width := Some 1200%float; ResizePreset.height := Some 675%float |};
    {| ResizePreset.name := "YouTube Thumbnail";
       ResizePreset.width := Some 1280%float; ResizePreset.height := Some 720%float |};
    {| ResizePreset.name := "HD (1080p)";
       ResizePreset.width := Some 1920%float; ResizePreset.height := Some 1080%float |};
    {| ResizePreset.name := "HD (720p)";
       ResizePreset.width := Some 1280%float; ResizePreset.height := Some 720%float |};
    {| ResizePreset.name := "Custom";
       ResizePreset.width := None; ResizePreset.height := None |} ].

End Resizer.

(** ** imageCompressor.ts *)

Module Compressor.

Import JS Dom.
Local Open Scope async_scope.

Record CompressionOptions := {
  maxSizeMB : option number;
  maxWidthOrHeight : option number;
  useWebWorker : option bool;
  quality : option number;
  preserveExif : option bool
}.

Record CompressionResult := {
  blob : File;
  url : string;
  filename : string;
  originalSize : number;
  compressedSize : number;
  compressionRatio : number
}.

(** [x !== false] for an optional boolean field. *)
Definition not_false (x : option bool) : bool :=
  match x with
  | Some false => false
  | _ => true
  end.

Definition compressImage (P : Platform) (file : File)
    (options : CompressionOptions) : Async CompressionResult :=
  rethrow "Failed to compress image: "
    (let compressOptions :=
       {| cfg_maxSizeMB := or_default (maxSizeMB options) 1;
          cfg_maxWidthOrHeight := maxWidthOrHeight options;
          cfg_useWebWorker := not_false (useWebWorker options);
          cfg_initialQuality := or_default (quality options) 0.8;
          cfg_preserveExif := not_false (preserveExif options) |} in
     compressedFile <- perform (ImageCompression file compressOptions)
                         (imageCompression P file compressOptions) ;;
     let url := createObjectURL P (as_blob compressedFile) in
     let compressionRatio :=
       Math_round ((1 - size (as_blob compressedFile) / size (as_blob file)) * 100) in
     resolve {| blob := compressedFile;
                url := url;
                filename := name file;
                originalSize := size (as_blob file);
                compressedSize := size (as_blob compressedFile);
                compressionRatio := compressionRatio |}).

Definition canCompress (file : File) : bool :=
  existsb (String.eqb (toLowerCase (type (as_blob file))))
    ["image/jpeg"; "image/jpg"; "image/png"; "image/webp"].

(** [getRecommendedSettings]: only [maxSizeMB] and [quality] are set. *)
Definition getRecommendedSettings (fileSizeBytes : number) : CompressionOptions :=
  let sizeMB := (fileSizeBytes / (1024 * 1024))%float in
  let recommended (m q : number) :=
    {| maxSizeMB := Some m; maxWidthOrHeight := None; useWebWorker := None;
       quality := Some q; preserveExif := None |} in
  if PrimFloat.ltb sizeMB 1 then recommended 0.5%float 0.9%float
  else if PrimFloat.ltb sizeMB 5 then recommended 1%float 0.85%float
  else if PrimFloat.ltb sizeMB 10 then recommended 2%float 0.8%float
  else recommended 3%float 0.75%float.

End Compressor.

(** ** backgroundRemover.ts *)

Module BackgroundRemover.

Import JS Dom.
Local Open Scope async_scope.

Inductive Format := png | jpg | webp.

Definition format_str (f : Format) : string :=
  match f with
  | png => "png"
  | jpg => "jpg"
  | webp => "webp"
  end.

Record BackgroundRemovalOptions := {
  format : option Format;
  quality : option number
}.

Record BackgroundRemovalResult := {
  blob : Blob;
  url : string;
  filename : string;
  originalSize : number;
  newSize : number
}.

Definition removeBgFromImage (P : Platform) (file : File)
    (options : BackgroundRemovalOptions) : Async BackgroundRemovalResult :=
  let format := match format options with Some f => f | None => png end in
  let quality := match quality options with Some q => q | None => 0.95%float end in
  rethrow "Failed to remove background: "
    (blob <- perform (RemoveBackground file) (removeBackground P file) ;;
     resultBlob <-
       (if negb (match format with png => true | _ => false end)
           || negb (String.eqb (type blob) "image/png")
        then
          match loadImage P blob with
          | None => settle (Rejected NotAnError)
          | Some img =>
            let canvas :=
              set_height (Dom.height img) (set_width (Dom.width img) createCanvas) in
            if negb (getContext2d P canvas) then reject "Failed to get canvas context"
            else
              let canvas := draw (DrawImage img 0 0 None) canvas in
              Converter.encode P canvas ("image/" ++ format_str format) quality
                "Failed to create blob"
          end
        else resolve blob) ;;
     let nameWithoutExt := Regex.replace_ext_noslash (name file) "" in
     let filename := nameWithoutExt ++ "_no-bg." ++ format_str format in
     resolve {| blob := resultBlob;
                url := createObjectURL P resultBlob;
                filename := filename;
                originalSize := size (as_blob file);
                newSize := size resultBlob |}).

Definition canRemoveBackground (file : File) : bool :=
  existsb (String.eqb (type (as_blob file)))
    ["image/png"; "image/jpeg"; "image/jpg"; "image/webp"].

End BackgroundRemover.

(** ** ImageConverter.vue: the compression ladder *)

Module ImageConverterVue.

Import JS.

Record Settings := { maxSizeMB : number; quality : number }.

Definition settings : list Settings :=
  [ {| maxSizeMB := 5; quality := 0.95 |};
    {| maxSizeMB := 3; quality := 0.85 |};
    {| maxSizeMB := 2; quality := 0.75 |};
    {| maxSizeMB := 1; quality := 0.65 |};
    {| maxSizeMB := 0.5; quality := 0.50 |} ].

(** [settings[level - 1] ?? { maxSizeMB: 2, quality: 0.75 }]: an element
    exists only at an integer index within the array. *)
Definition getCompressionSettings (level : number) : Settings :=
  let setting :=
    match to_integer (level - 1) with
    | Some i => if (0 <=? i)%Z then nth_error settings (Z.to_nat i) else None
    | None => None
    end in
  match setting with
  | Some s => s
  | None => {| maxSizeMB := 2; quality := 0.75 |}
  end.

Definition labels : list string :=
  [ "Best Quality"; "High Quality"; "Balanced"; "Smaller Size"; "Maximum Compression" ].

(** [labels[level - 1] ?? 'Balanced'] *)
Definition getCompressionLabel (level : number) : string :=
  let label :=
    match to_integer (level - 1) with
    | Some i => if (0 <=? i)%Z then nth_error labels (Z.to_nat i) else None
    | None => None
    end in
  match label with
  | Some l => l
  | None => "Balanced"
  end.

Inductive Mode := convert | compress | resize | crop | remove_bg.

(** What [fileItem.result] holds. *)
Inductive Result :=
| ConversionResult (r : Converter.ConversionResult)
| CompressionResult (r : Compressor.CompressionResult)
| ResizeResult (r : Resizer.ResizeResult)
| BackgroundRemovalResult (r : BackgroundRemover.BackgroundRemovalResult).

(** A [FileItem]; its [outputFormat] is one of png, jpg and webp. *)
Module FileItem.

Record t := {
  id : string;
  file : Dom.File;
  preview : option string;
  mode : Mode;
  outputFormat : BackgroundRemover.Format;
  quality : number;
  compressionLevel : number;
  maxSizeMB : number;
  maxWidthOrHeight : option number;
  resizePreset : string;
  resizeWidth : option number;
  resizeHeight : option number;
  maintainAspectRatio : bool;
  result : option Result;
  processing : bool;
  error : option string;
  removing : option bool
}.

(** The assignments to the fields that the functions below change. *)
Definition set_status (processing : bool) (error : option string)
    (result : option Result) (i : t) : t :=
  {| id := id i; file := file i; preview := preview i; mode := mode i;
     outputFormat := outputFormat i; quality := quality i;
     compressionLevel := compressionLevel i; maxSizeMB := maxSizeMB i;
     maxWidthOrHeight := maxWidthOrHeight i; resizePreset := resizePreset i;
     resizeWidth := resizeWidth i; resizeHeight := resizeHeight i;
     maintainAspectRatio := maintainAspectRatio i;
     result := result; processing := processing; error := error;
     removing := removing i |}.

Definition set_resize (width height : option number) (i : t) : t :=
  {| id := id i; file := file i; preview := preview i; mode := mode i;
     outputFormat := outputFormat i; quality := quality i;
     compressionLevel := compressionLevel i; maxSizeMB := maxSizeMB i;
     maxWidthOrHeight := maxWidthOrHeight i; resizePreset := resizePreset i;
     resizeWidth := width; resizeHeight := height;
     maintainAspectRatio := maintainAspectRatio i;
     result := result i; processing := processing i; error := error i;
     removing := removing i |}.

End FileItem.

(** The output format of an item as a conversion format. *)
Definition conversionFormat (f : BackgroundRemover.Format) : Converter.Format :=
  match f with
  | BackgroundRemover.png => Converter.png
  | BackgroundRemover.jpg => Converter.jpg
  | BackgroundRemover.webp => Converter.webp
  end.

(** The filter of [addFiles]: the files it keeps. *)
Definition imageFiles (newFiles : list Dom.File) : list Dom.File :=
  filter (fun file =>
            let supportedFormats := Converter.getSupportedOutputFormats file in
            (0 <? List.length supportedFormats)%nat
            || Compressor.canCompress file || Resizer.canResize file)
    newFiles.

(** The item [addFiles] makes of a kept file; [id] is what [generateId]
    draws. *)
Definition newFileItem (P : Dom.Platform) (id : string) (defaultMode : Mode)
    (file : Dom.File) : FileItem.t :=
  let isSvg :=
    String.eqb (Dom.type (Dom.as_blob file)) "image/svg+xml"
    || endsWith (toLowerCase (Dom.name file)) ".svg" in
  let isPdf :=
    endsWith (toLowerCase (Dom.name file)) ".pdf"
    || String.eqb (Dom.type (Dom.as_blob file)) "application/pdf" in
  let preview :=
    if negb isSvg && negb isPdf
    then Some (Dom.createObjectURL P (Dom.as_blob file))
    else None in
  let recommended :=
    Compressor.getRecommendedSettings (Dom.size (Dom.as_blob file)) in
  {| FileItem.id := id;
     FileItem.file := file;
     FileItem.preview := preview;
     FileItem.mode := defaultMode;
     FileItem.outputFormat := BackgroundRemover.jpg;
     FileItem.quality := 0.85;
     FileItem.compressionLevel := 3;
     FileItem.maxSizeMB := or_default (Compressor.maxSizeMB recommended) 1;
     FileItem.maxWidthOrHeight := None;
     FileItem.resizePreset := "Custom";
     FileItem.resizeWidth := None;
     FileItem.resizeHeight := None;
     FileItem.maintainAspectRatio := true;
     FileItem.result := None;
     FileItem.processing := false;
     FileItem.error := None;
     FileItem.removing := None |}.

(** The operation [processFile] runs for the mode of the item: every mode
    other than compress, resize and remove-bg converts. *)
Definition runMode (P : Dom.Platform) (fileItem : FileItem.t) : Dom.Async Result :=
  match FileItem.mode fileItem with
  | compress =>
      let settings := getCompressionSettings (FileItem.compressionLevel fileItem) in
      let options :=
        {| Compressor.maxSizeMB := Some (maxSizeMB settings);
           Compressor.maxWidthOrHeight := FileItem.maxWidthOrHeight fileItem;
           Compressor.useWebWorker := None;
           Compressor.quality := Some (quality settings);
           Compressor.preserveExif := None |} in
      Dom.bind (Compressor.compressImage P (FileItem.file fileItem) options)
        (fun r => Dom.resolve (CompressionResult r))
  | resize =>
      let options :=
        {| Resizer.width := FileItem.resizeWidth fileItem;
           Resizer.height := FileItem.resizeHeight fileItem;
           Resizer.maintainAspectRatio := Some (FileItem.maintainAspectRatio fileItem);
           Resizer.quality := Some (FileItem.quality fileItem);
           Resizer.format := Some (conversionFormat (FileItem.outputFormat fileItem)) |} in
      Dom.bind (Resizer.resizeImage P (FileItem.file fileItem) options)
        (fun r => Dom.resolve (ResizeResult r))
  | remove_bg =>
      let options :=
        {| BackgroundRemover.format := Some (FileItem.outputFormat fileItem);
           BackgroundRemover.quality := Some (FileItem.quality fileItem) |} in
      Dom.bind (BackgroundRemover.removeBgFromImage P (FileItem.file fileItem) options)
        (fun r => Dom.resolve (BackgroundRemovalResult r))
  | _ =>
      let options :=
        {| Converter.format := conversionFormat (FileItem.outputFormat fileItem);
           Converter.quality := Some (FileItem.quality fileItem);
           Converter.width := None;
           Converter.height := None;
           Converter.maintainAspectRatio := Some true;
           Converter.scale := None |} in
      Dom.bind (Converter.convertImage P (FileItem.file fileItem) options)
        (fun r => Dom.resolve (ConversionResult r))
  end.

(** [processFile]: the item as it is when the function returns.  A failure
    is caught and recorded; the result of an earlier run is kept then. *)
Definition processFile (P : Dom.Platform) (fileItem : FileItem.t)
  : Dom.Async FileItem.t :=
  let fileItem := FileItem.set_status true None (FileItem.result fileItem) fileItem in
  match runMode P fileItem with
  | (log, Dom.Resolved r) =>
      (log, Dom.Resolved (FileItem.set_status false None (Some r) fileItem))
  | (log, Dom.Rejected (Dom.ErrorObj message)) =>
      (log, Dom.Resolved
              (FileItem.set_status false (Some message) (FileItem.result fileItem)
                 fileItem))
  | (log, Dom.Rejected Dom.NotAnError) =>
      (log, Dom.Resolved
              (FileItem.set_status false (Some "Processing failed")
                 (FileItem.result fileItem) fileItem))
  | (log, Dom.Pending) => (log, Dom.Pending)
  end.

(** [!f.result && !f.error] *)
Definition unprocessed (f : FileItem.t) : bool :=
  match FileItem.result f, FileItem.error f with
  | None, None => true
  | None, Some message => negb (truthy_str message)
  | Some _, _ => false
  end.

(** [processAll]: the unprocessed items are processed one after the other,
    in the order of the list. *)
Fixpoint processAll (P : Dom.Platform) (files : list FileItem.t)
  : Dom.Async (list FileItem.t) :=
  match files with
  | [] => Dom.resolve []
  | f :: rest =>
      if unprocessed f
      then Dom.bind (processFile P f)
             (fun f' => Dom.bind (processAll P rest)
                          (fun rest' => Dom.resolve (f' :: rest')))
      else Dom.bind (processAll P rest) (fun rest' => Dom.resolve (f :: rest'))
  end.

(** [files.length > 0 && files.every(f => f.result || f.error)] *)
Definition allProcessed (files : list FileItem.t) : bool :=
  (0 <? List.length files)%nat && forallb (fun f => negb (unprocessed f)) files.

(** [handlePresetChange] *)
Definition handlePresetChange (fileItem : FileItem.t) : FileItem.t :=
  let preset :=
    List.find (fun p => String.eqb (Resizer.ResizePreset.name p)
                          (FileItem.resizePreset fileItem))
      Resizer.RESIZE_PRESETS in
  match preset with
  | Some p =>
      if negb (String.eqb (Resizer.ResizePreset.name p) "Custom")
      then FileItem.set_resize (Resizer.ResizePreset.width p)
             (Resizer.ResizePreset.height p) fileItem
      else if String.eqb (FileItem.resizePreset fileItem) "Custom"
      then FileItem.set_resize
             (if truthy_opt (FileItem.resizeWidth fileItem)
              then FileItem.resizeWidth fileItem else Some 1920%float)
             (if truthy_opt (FileItem.resizeHeight fileItem)
              then FileItem.resizeHeight fileItem else Some 1080%float)
             fileItem
      else fileItem
  | None =>
      if String.eqb (FileItem.resizePreset fileItem) "Custom"
      then FileItem.set_resize
             (if truthy_opt (FileItem.resizeWidth fileItem)
              then FileItem.resizeWidth fileItem else Some 1920%float)
             (if truthy_opt (FileItem.resizeHeight fileItem)
              then FileItem.resizeHeight fileItem else Some 1080%float)
             fileItem
      else fileItem
  end.

(** What the cropper hands back. *)
Record CropResult := {
  crop_blob : Dom.Blob;
  crop_url : string;
  crop_width : number;
  crop_height : number
}.

(** [handleCropResult] when the cropper is open on [fileItem]: the result
    stored in the item. *)
Definition handleCropResult (fileItem : FileItem.t) (result : CropResult)
  : FileItem.t :=
  FileItem.set_status (FileItem.processing fileItem) (FileItem.error fileItem)
    (Some (ResizeResult
             {| Resizer.blob := crop_blob result;
                Resizer.url := crop_url result;
                Resizer.filename :=
                  Regex.replace_ext (Dom.name (FileItem.file fileItem)) "_cropped.png";
                Resizer.originalSize := Dom.size (Dom.as_blob (FileItem.file fileItem));
                Resizer.newSize := Dom.size (crop_blob result);
                Resizer.originalWidth := 0;
                Resizer.originalHeight := 0;
                Resizer.newWidth := crop_width result;
                Resizer.newHeight := crop_height result |}))
    fileItem.

End ImageConverterVue.

(** ** The format detector

    [convertImage] classifies its input inline; [detect] is that chain of
    tests on its own, and [classified] is the ordered rule list of the
    specification, stated on the file name and the declared media type
    (both compared without case, as extensions and media types are). *)

Module FormatDetector.

Import JS Dom.

Inductive FormatKind := Vector | Raster | Heic | Pdf | Unsupported.

Definition detect (file : File) : FormatKind :=
  let fileType := toLowerCase (type (as_blob file)) in
  let fileName := toLowerCase (name file) in
  if endsWith fileName ".pdf" || String.eqb fileType "application/pdf"
  then Pdf
  else if endsWith fileName ".heic" || endsWith fileName ".heif"
          || String.eqb fileType "image/heic" || String.eqb fileType "image/heif"
  then Heic
  else if String.eqb fileType "image/svg+xml" || endsWith fileName ".svg"
  then Vector
  else if startsWith fileType "image/"
  then Raster
  else Unsupported.

(** The file name ends with the extension [ext], in any case. *)
Definition has_extension (file : File) (ext : string) : Prop :=
  exists stem tail, name file = stem ++ tail /\ toLowerCase tail = ext.

(** The declared media type is [t], in any case. *)
Definition declares (file : File) (t : string) : Prop :=
  toLowerCase (type (as_blob file)) = t.

Definition rule_pdf (file : File) : Prop :=
  has_extension file ".pdf" \/ declares file "application/pdf".

Definition rule_heic (file : File) : Prop :=
  has_extension file ".heic" \/ has_extension file ".heif"
  \/ declares file "image/heic" \/ declares file "image/heif".

Definition rule_svg (file : File) : Prop :=
  declares file "image/svg+xml" \/ has_extension file ".svg".

Definition rule_raster (file : File) : Prop :=
  exists rest, toLowerCase (type (as_blob file)) = "image/" ++ rest.

(** The ordered rules, the first that applies deciding. *)
Inductive classified (file : File) : FormatKind -> Prop :=
| is_pdf : rule_pdf file -> classified file Pdf
| is_heic : ~ rule_pdf file -> rule_heic file -> classified file Heic
| is_vector :
    ~ rule_pdf file -> ~ rule_heic file -> rule_svg file -> classified file Vector
| is_raster :
    ~ rule_pdf file -> ~ rule_heic file -> ~ rule_svg file -> rule_raster file ->
    classified file Raster
| is_unsupported :
    ~ rule_pdf file -> ~ rule_heic file -> ~ rule_svg file -> ~ rule_raster file ->
    classified file Unsupported.

(** What [convertImage] does for each kind. *)
Definition dispatch (P : Platform) (file : File)
    (options : Converter.ConversionOptions) (k : FormatKind)
  : Async Converter.ConversionResult :=
  match k with
  | Pdf => Converter.convertPdfToRaster P file options
  | Heic => Converter.convertHeicToRaster P file options
  | Vector => Converter.convertSvgToRaster P file options
  | Raster => Converter.convertRasterFormat P file options
  | Unsupported =>
      let fileType := toLowerCase (type (as_blob file)) in
      reject ("Unsupported file type: "
                ++ (if truthy_str fileType then fileType else "unknown"))
  end.

End FormatDetector.

(** ** What reaches the encoders *)

Module Encoder.

Import JS Dom.

(** The quality argument of a call to an encoding collaborator. *)
Definition call_quality (c : Call) : option number :=
  match c with
  | ToBlob _ _ q => Some q
  | Heic2any _ _ q => Some q
  | ImageCompression _ cfg => Some (cfg_initialQuality cfg)
  | GetPage _ _ => None
  | RemoveBackground _ => None
  end.

(** [0 <= q <= 1] *)
Definition in_unit_range (q : number) : bool :=
  PrimFloat.leb 0 q && PrimFloat.leb q 1.

(** Every quality handed to an encoder lies in [0,1]. *)
Definition quality_guarded (l : list Call) : bool :=
  forallb (fun c => match call_quality c with
                    | Some q => in_unit_range q
                    | None => true
                    end) l.

(** Every call an operation makes satisfies [Q]. *)
Definition all_calls {T} (Q : Call -> Prop) (m : Async T) : Prop :=
  Forall Q (calls m).

(** Whatever an operation resolves with satisfies [R]. *)
Definition resolves_with {T} (R : T -> Prop) (m : Async T) : Prop :=
  forall a, outcome m = Resolved a -> R a.

(** The quality of the call, if it has one, is [q0]. *)
Definition quality_is (q0 : number) (c : Call) : Prop :=
  forall q, call_quality c = Some q -> q = q0.

(** The surface of a call to [canvas.toBlob]. *)
Definition call_surface (c : Call) : option Canvas :=
  match c with
  | ToBlob cv _ _ => Some cv
  | _ => None
  end.

Definition is_fill (op : DrawOp) : bool :=
  match op with
  | FillRect _ _ _ _ _ => true
  | _ => false
  end.

(** Setting the smoothing mode paints nothing. *)
Definition is_paint (op : DrawOp) : bool :=
  match op with
  | SetSmoothing _ _ => false
  | _ => true
  end.

Definition paints (cv : Canvas) : list DrawOp := filter is_paint (ops cv).

(** The first thing painted on the surface is an opaque white rectangle
    covering all of it, and the source is drawn after it. *)
Definition white_first (cv : Canvas) : Prop :=
  exists src rest,
    paints cv
    = FillRect "#FFFFFF" 0 0 (cv_width cv) (cv_height cv) :: src :: rest
    /\ is_fill src = false.

(** Nothing is filled on the surface. *)
Definition no_fill (cv : Canvas) : Prop := existsb is_fill (ops cv) = false.

(** The surface was given the size [w] by [h]: its dimensions are what a
    canvas stores when they are assigned. *)
Definition sized (w h : number) (cv : Canvas) : Prop :=
  cv_width cv = canvas_dimension 300 w /\ cv_height cv = canvas_dimension 150 h.

(** A size that a canvas stores as it is assigned. *)
Definition canvas_size (w h : number) : Prop :=
  canvas_dimension 300 w = w /\ canvas_dimension 150 h = h.

(** The first thing painted on the surface is an opaque white rectangle
    from the origin, of the size [w] by [h] that the surface was given, and
    the source is drawn after it. *)
Definition white_behind (cv : Canvas) : Prop :=
  exists w h src rest,
    sized w h cv
    /\ paints cv = FillRect "#FFFFFF" 0 0 w h :: src :: rest
    /\ is_fill src = false.

(** The white background on the surface of an encoder call, for an output
    format that is JPEG ([jpeg = true]) or not. *)
Definition white_rule (jpeg : bool) (c : Call) : Prop :=
  forall cv, call_surface c = Some cv ->
    if jpeg then white_behind cv else no_fill cv.

(** The alpha rule on the surface of an encoder call, for an output
    format that is JPEG ([jpeg = true]) or not. *)
Definition alpha_rule (jpeg : bool) (c : Call) : Prop :=
  forall cv, call_surface c = Some cv ->
    if jpeg then white_first cv else no_fill cv.

(** Whatever an operation rejects with satisfies [R]. *)
Definition rejects_with {T} (R : Thrown -> Prop) (m : Async T) : Prop :=
  forall e, outcome m = Rejected e -> R e.

(** An [Error] object with a message that is not empty. *)
Definition proper_error (e : Thrown) : Prop :=
  exists message, e = ErrorObj message /\ message <> "".

(** The calls to an encoding collaborator. *)
Definition is_encoding (c : Call) : bool :=
  match c with
  | ToBlob _ _ _ | Heic2any _ _ _ | ImageCompression _ _ => true
  | GetPage _ _ | RemoveBackground _ => false
  end.

(** How many encoding calls an operation makes. *)
Definition encodings {T} (m : Async T) : nat :=
  List.length (filter is_encoding (calls m)).

(** The operation makes at most [n] encoding calls, and exactly [n] when it
    resolves. *)
Definition encodes {T} (n : nat) (m : Async T) : Prop :=
  encodings m <= n /\ forall a, outcome m = Resolved a -> encodings m = n.

(** The browser answers for [file]: the file is read and decoded, a
    surface gives its context, documents and pages load and render, and
    every encoder delivers. *)
Record cooperative (P : Platform) (file : File) : Prop := {
  image_loads : loadImage P (as_blob file) <> None;
  text_reads : readAsText P file <> None;
  text_encodes : forall s, btoa P s <> None;
  svg_loads : forall s, loadSvg P s <> None;
  context_is_had : forall c, getContext2d P c = true;
  surface_encodes : forall c mime q, toBlob P c mime q <> None;
  heic_converts :
    forall toType q,
      exists b, heic2any P file toType q = Resolved (OneBlob b)
                \/ exists l, heic2any P file toType q = Resolved (ManyBlobs (b :: l));
  document_loads : exists pdf, getDocument P file = Resolved pdf;
  page_loads : forall pdf n, exists page, getPage P pdf n = Resolved page;
  page_renders : forall page viewport, renderPage P page viewport = Resolved tt;
  file_compresses : forall cfg, exists f, imageCompression P file cfg = Resolved f
}.

(** The operation succeeds, having called an encoder once, with the
    quality [q]. *)
Definition encoded_with {T} (q : number) (m : Async T) : Prop :=
  (exists a, outcome m = Resolved a)
  /\ map call_quality (filter is_encoding (calls m)) = [Some q].

(** The page number of a call to the PDF renderer is 1. *)
Definition first_page (c : Call) : Prop :=
  forall doc n, c = GetPage doc n -> n = 1%float.

(** The message of the failure begins with "Failed". *)
Definition failed_message (e : Thrown) : Prop :=
  exists rest, e = ErrorObj ("Failed" ++ rest).

(** The failure is an [Error] whose message begins with [prefix]. *)
Definition prefixed (prefix : string) (e : Thrown) : Prop :=
  exists rest, e = ErrorObj (prefix ++ rest).

(** What the result of a conversion reports: the sizes of the input file and
    of the blob it holds, the URL made for that blob, the format asked for. *)
Definition faithful_result (P : Platform) (file : File)
    (o : Converter.ConversionOptions) (r : Converter.ConversionResult) : Prop :=
  Converter.originalSize r = size (as_blob file)
  /\ Converter.newSize r = size (Converter.blob r)
  /\ Converter.url r = createObjectURL P (Converter.blob r)
  /\ Converter.r_format r = Converter.format o.

End Encoder.

(** ** A sample browser and sample inputs *)

Module Sample.

Import JS Dom.

Definition image : Image := {| width := 1000; height := 500; bitmap := 1 |}.

Definition platform : Platform :=
  {| loadImage := fun _ => Some image;
     readAsText := fun _ => Some "<svg/>";
     btoa := fun s => Some s;
     loadSvg := fun _ => Some image;
     getContext2d := fun _ => true;
     toBlob := fun _ mime _ => Some {| payload := 2; size := 2048; type := mime |};
     createObjectURL := fun _ => "blob:sample";
     heic2any := fun _ toType _ =>
       Resolved (OneBlob {| payload := 3; size := 4096; type := toType |});
     getDocument := fun _ => Resolved 1%N;
     getPage := fun _ _ => Resolved 1%N;
     getViewport := fun _ s =>
       {| vp_width := 612 * s; vp_height := 792 * s; vp_scale := s |};
     renderPage := fun _ _ => Resolved tt;
     imageCompression := fun f _ =>
       Resolved {| name := name f;
                   as_blob := {| payload := 4; size := 300; type := type (as_blob f) |} |};
     removeBackground := fun _ =>
       Resolved {| payload := 5; size := 5000; type := "image/png" |};
     numberToString := fun _ => "" |}.

Definition file (name type : string) : File :=
  {| name := name; as_blob := {| payload := 0; size := 1000; type := type |} |}.

Definition photo_png : File := file "photo.png" "image/png".
Definition photo_heif : File := file "photo.heif" "image/heif".
Definition notes_txt : File := file "notes.txt" "text/plain".
Definition x_pdf : File := file "x.pdf" "image/png".

Definition convertOptions (f : Converter.Format) (q w h : option number)
    (lock : option bool) : Converter.ConversionOptions :=
  {| Converter.format := f; Converter.quality := q;
     Converter.width := w; Converter.height := h;
     Converter.maintainAspectRatio := lock; Converter.scale := None |}.

Definition resizeOptions (w h : option number) (lock : option bool)
    (q : option number) (f : option Converter.Format) : Resizer.ResizeOptions :=
  {| Resizer.width := w; Resizer.height := h;
     Resizer.maintainAspectRatio := lock;
     Resizer.quality := q; Resizer.format := f |}.

Definition compressOptions (q : option number) : Compressor.CompressionOptions :=
  {| Compressor.maxSizeMB := None; Compressor.maxWidthOrHeight := None;
     Compressor.useWebWorker := None; Compressor.quality := q;
     Compressor.preserveExif := None |}.

(** The sample browser with a [btoa] that throws. *)
Definition throwing_btoa : Platform :=
  {| loadImage := loadImage platform;
     readAsText := readAsText platform;
     btoa := fun _ => None;
     loadSvg := loadSvg platform;
     getContext2d := getContext2d platform;
     toBlob := toBlob platform;
     createObjectURL := createObjectURL platform;
     heic2any := heic2any platform;
     getDocument := getDocument platform;
     getPage := getPage platform;
     getViewport := getViewport platform;
     renderPage := renderPage platform;
     imageCompression := imageCompression platform;
     removeBackground := removeBackground platform;
     numberToString := numberToString platform |}.

End Sample.

(** * Properties *)

(** ** Strings *)

Section Strings.

Lemma toLowerCase_app (a b : string) :
  JS.toLowerCase (a ++ b) = JS.toLowerCase a ++ JS.toLowerCase b.
Proof. induction a as [|c a IH]; simpl; [reflexivity | now rewrite IH]. Qed.

Lemma endsWith_spec (s suf : string) :
  JS.endsWith s suf = true <-> exists stem, s = stem ++ suf.
Proof.
  split.
  - induction s as [|c r IH]; cbn [JS.endsWith JS.toLowerCase]; intros H.
    + apply orb_true_iff in H as [H | H]; [|discriminate].
      apply String.eqb_eq in H. exists "". now subst.
    + apply orb_true_iff in H as [H | H].
      * apply String.eqb_eq in H. exists "". now rewrite <- H.
      * destruct (IH H) as [stem ->]. now exists (String c stem).
  - intros [stem ->]. induction stem as [|c stem IH].
    + destruct suf; cbn [JS.endsWith append]; now rewrite String.eqb_refl.
    + cbn [JS.endsWith append]. now rewrite IH, orb_true_r.
Qed.

Lemma endsWith_lower (s ext : string) :
  JS.endsWith (JS.toLowerCase s) ext = true <->
  exists stem tail, s = stem ++ tail /\ JS.toLowerCase tail = ext.
Proof.
  split.
  - induction s as [|c r IH]; cbn [JS.endsWith JS.toLowerCase]; intros H.
    + apply orb_true_iff in H as [H | H]; [|discriminate].
      apply String.eqb_eq in H. exists "", "". now subst.
    + apply orb_true_iff in H as [H | H].
      * apply String.eqb_eq in H. exists "", (String c r). now split.
      * destruct (IH H) as (stem & tail & -> & Ht).
        exists (String c stem), tail. now split.
  - intros (stem & tail & -> & <-). rewrite toLowerCase_app.
    apply endsWith_spec. now exists (JS.toLowerCase stem).
Qed.

Lemma startsWith_spec (s p : string) :
  JS.startsWith s p = true <-> exists rest, s = p ++ rest.
Proof.
  unfold JS.startsWith. revert s.
  induction p as [|c p IH]; intros [|d s]; cbn [prefix append].
  - split; [now exists "" | reflexivity].
  - split; [now exists (String d s) | reflexivity].
  - split; [discriminate | intros [rest H]; discriminate].
  - destruct (ascii_dec c d) as [Heq | Hne].
    + rewrite IH. split; intros [rest H]; exists rest; congruence.
    + split; [discriminate | intros [rest H]; congruence].
Qed.

End Strings.
(** ** Format detection and dispatch *)

Section Detection.

Import JS Dom FormatDetector.

Variable file : File.

Let fileType := toLowerCase (type (as_blob file)).
Let fileName := toLowerCase (name file).

Lemma rule_pdf_test :
  rule_pdf file <->
  endsWith fileName ".pdf" || String.eqb fileType "application/pdf" = true.
Proof.
  unfold rule_pdf, has_extension, declares.
  rewrite orb_true_iff, String.eqb_eq. subst fileName. now rewrite endsWith_lower.
Qed.

Lemma rule_heic_test :
  rule_heic file <->
  endsWith fileName ".heic" || endsWith fileName ".heif"
  || String.eqb fileType "image/heic" || String.eqb fileType "image/heif" = true.
Proof.
  unfold rule_heic, has_extension, declares.
  rewrite !orb_true_iff, !String.eqb_eq. subst fileName.
  rewrite !endsWith_lower. tauto.
Qed.

Lemma rule_svg_test :
  rule_svg file <->
  String.eqb fileType "image/svg+xml" || endsWith fileName ".svg" = true.
Proof.
  unfold rule_svg, has_extension, declares.
  rewrite orb_true_iff, String.eqb_eq. subst fileName. now rewrite endsWith_lower.
Qed.

Lemma rule_raster_test :
  rule_raster file <-> startsWith fileType "image/" = true.
Proof. unfold rule_raster. now rewrite startsWith_spec. Qed.

Lemma detect_classified (k : FormatKind) : detect file = k <-> classified file k.
Proof.
  pose proof rule_pdf_test as Hp. pose proof rule_heic_test as Hh.
  pose proof rule_svg_test as Hs. pose proof rule_raster_test as Hr.
  unfold detect. fold fileType fileName.
  destruct (endsWith fileName ".pdf" || String.eqb fileType "application/pdf");
    [| destruct (endsWith fileName ".heic" || endsWith fileName ".heif"
                 || String.eqb fileType "image/heic" || String.eqb fileType "image/heif");
       [| destruct (String.eqb fileType "image/svg+xml" || endsWith fileName ".svg");
          [| destruct (startsWith fileType "image/") ] ] ].
  all: split; [ intros <-; constructor; intuition congruence
              | intros Hk; inversion Hk; intuition congruence ].
Qed.

Lemma convertImage_dispatch (P : Platform) (options : Converter.ConversionOptions) :
  Converter.convertImage P file options = dispatch P file options (detect file).
Proof.
  unfold Converter.convertImage, detect, dispatch. fold fileType fileName.
  destruct (endsWith fileName ".pdf" || String.eqb fileType "application/pdf");
    [reflexivity|].
  destruct (endsWith fileName ".heic" || endsWith fileName ".heif"
            || String.eqb fileType "image/heic" || String.eqb fileType "image/heif");
    [reflexivity|].
  destruct (String.eqb fileType "image/svg+xml" || endsWith fileName ".svg");
    [reflexivity|].
  destruct (startsWith fileType "image/"); reflexivity.
Qed.

End Detection.

(** C4.  Format detection in [convertImage] is the ordered classification,
    the first matching rule deciding: Pdf when the name ends with .pdf or
    the declared type is the PDF type; otherwise Heic on .heic/.heif or a
    HEIC/HEIF type; otherwise Vector on the SVG type or .svg; otherwise
    Raster when the declared type begins with image/; and [convertImage]
    hands the file to the decoder of its kind.  A file named x.pdf that
    declares image/png goes to the PDF decoder. *)
Theorem detection_first_match_wins :
  (forall file k, FormatDetector.detect file = k <-> FormatDetector.classified file k)
  /\ (forall P file options,
        Converter.convertImage P file options
        = FormatDetector.dispatch P file options (FormatDetector.detect file))
  /\ (forall P options bytes,
        let file := {| Dom.name := "x.pdf";
                       Dom.as_blob := {| Dom.payload := bytes; Dom.size := 1000;
                                         Dom.type := "image/png" |} |} in
        FormatDetector.detect file = FormatDetector.Pdf
        /\ Converter.convertImage P file options
           = Converter.convertPdfToRaster P file options).
Proof.
  split; [exact detect_classified|].
  split; [intros; apply convertImage_dispatch|].
  intros P options bytes file. split; reflexivity.
Qed.

(** C5.  A file that matches none of the PDF, HEIC and SVG rules and whose
    declared type does not begin with image/ makes [convertImage] fail:
    the promise is rejected with the error "Unsupported file type: " followed
    by the declared type (or "unknown" when none is declared), no
    collaborator having been called. *)
Theorem unsupported_input_rejected (P : Dom.Platform) (file : Dom.File)
    (options : Converter.ConversionOptions) :
  ~ FormatDetector.rule_pdf file ->
  ~ FormatDetector.rule_heic file ->
  ~ FormatDetector.rule_svg file ->
  ~ FormatDetector.rule_raster file ->
  let declared := JS.toLowerCase (Dom.type (Dom.as_blob file)) in
  Converter.convertImage P file options
  = ([], Dom.Rejected
           (Dom.ErrorObj ("Unsupported file type: "
                            ++ (if JS.truthy_str declared then declared else "unknown")))).
Proof.
  intros Hp Hh Hs Hr declared.
  rewrite convertImage_dispatch.
  assert (Hk : FormatDetector.classified file FormatDetector.Unsupported)
    by now constructor.
  apply detect_classified in Hk. rewrite Hk. reflexivity.
Qed.

Lemma unsupported_input_rejected_witness :
  Converter.convertImage Sample.platform Sample.notes_txt
    (Sample.convertOptions Converter.jpg None None None None)
  = ([], Dom.Rejected (Dom.ErrorObj "Unsupported file type: text/plain")).
Proof.
  apply (unsupported_input_rejected Sample.platform Sample.notes_txt).
  - rewrite rule_pdf_test. vm_compute. discriminate.
  - rewrite rule_heic_test. vm_compute. discriminate.
  - rewrite rule_svg_test. vm_compute. discriminate.
  - rewrite rule_raster_test. vm_compute. discriminate.
Defined.

(** ** Target dimensions *)

Section Geometry.

Import JS Dom.

Lemma positive_truthy (w : number) : PrimFloat.ltb 0 w = true -> truthy w = true.
Proof.
  unfold truthy, PrimFloat.is_nan.
  rewrite FloatAxioms.ltb_spec, !FloatAxioms.eqb_spec.
  change (Prim2SF 0) with (S754_zero false).
  unfold SFltb, SFeqb.
  destruct (Prim2SF w) as [s| [] | | [] m e]; simpl; try discriminate; try reflexivity.
  intros _. now rewrite Z.compare_refl, Pos.compare_cont_refl.
Qed.

Lemma or_default_truthy (w d : number) : truthy w = true -> or_default (Some w) d = w.
Proof. intros H. unfold or_default. now rewrite H. Qed.

Lemma resize_one_width (W H w : number) (o : Resizer.ResizeOptions) :
  Resizer.maintainAspectRatio o <> Some false ->
  Resizer.width o = Some w -> truthy w = true ->
  truthy_opt (Resizer.height o) = false ->
  Resizer.targetDimensions W H o = (w, Math_round (w / (W / H))).
Proof.
  intros Hlock Hw Ht Hh. unfold Resizer.targetDimensions.
  rewrite Hw, Hh. cbn [truthy_opt Converter.num]. rewrite Ht, (or_default_truthy _ _ Ht).
  destruct (Resizer.maintainAspectRatio o) as [[]|]; try reflexivity. now elim Hlock.
Qed.

Lemma resize_one_height (W H h : number) (o : Resizer.ResizeOptions) :
  Resizer.maintainAspectRatio o <> Some false ->
  Resizer.height o = Some h -> truthy h = true ->
  truthy_opt (Resizer.width o) = false ->
  Resizer.targetDimensions W H o = (Math_round (h * (W / H)), h).
Proof.
  intros Hlock Hh Ht Hw. unfold Resizer.targetDimensions.
  rewrite Hh, Hw. cbn [truthy_opt Converter.num]. rewrite Ht, (or_default_truthy _ _ Ht).
  destruct (Resizer.maintainAspectRatio o) as [[]|]; try reflexivity. now elim Hlock.
Qed.

Lemma resize_fit_within (W H w h : number) (o : Resizer.ResizeOptions) :
  Resizer.maintainAspectRatio o <> Some false ->
  Resizer.width o = Some w -> truthy w = true ->
  Resizer.height o = Some h -> truthy h = true ->
  Resizer.targetDimensions W H o
  = (Math_round (W * Math_min (w / W) (h / H)),
     Math_round (H * Math_min (w / W) (h / H))).
Proof.
  intros Hlock Hw Htw Hh Hth. unfold Resizer.targetDimensions.
  rewrite Hw, Hh. cbn [truthy_opt Converter.num]. rewrite Htw, Hth.
  destruct (Resizer.maintainAspectRatio o) as [[]|]; try reflexivity. now elim Hlock.
Qed.

Lemma resize_stretch (W H w h : number) (o : Resizer.ResizeOptions) :
  Resizer.maintainAspectRatio o = Some false ->
  Resizer.width o = Some w -> truthy w = true ->
  Resizer.height o = Some h -> truthy h = true ->
  Resizer.targetDimensions W H o = (w, h).
Proof.
  intros Hlock Hw Htw Hh Hth. unfold Resizer.targetDimensions.
  rewrite Hlock, Hw, Hh. now rewrite !or_default_truthy.
Qed.

(** [convertRasterFormat] has no case for both dimensions: it takes them
    as they are, whatever the lock. *)
Lemma raster_both_verbatim (W H w h : number) (o : Converter.ConversionOptions) :
  Converter.width o = Some w -> truthy w = true ->
  Converter.height o = Some h -> truthy h = true ->
  Converter.rasterDimensions W H o = (w, h).
Proof.
  intros Hw Htw Hh Hth. unfold Converter.rasterDimensions.
  rewrite Hw, Hh. cbn [truthy_opt]. rewrite Htw, Hth, !or_default_truthy by assumption.
  now destruct (Converter.maintainAspectRatio o) as [[]|].
Qed.

Example round_half_up : Math_round 2.5 = 3%float /\ Math_round (-2.5) = (-2)%float.
Proof. split; reflexivity. Qed.

Example round_below_half : Math_round 0.49999999999999994 = 0%float.
Proof. reflexivity. Qed.

Example round_large : Math_round 4503599627370495.5 = 4503599627370496%float.
Proof. reflexivity. Qed.

End Geometry.

(** C2.  With both dimensions given and the lock on, [resizeImage] fits the
    image within the box, but [convertRasterFormat] has no such case: for a
    1000x500 image and a 400x400 box it sizes its canvas 400x400 where
    fit-within gives 400x200. *)
Theorem raster_convert_not_fit_within :
  let options :=
    Sample.convertOptions Converter.png None (Some 400%float) (Some 400%float)
      (Some true) in
  Converter.rasterDimensions 1000 500 options = (400%float, 400%float)
  /\ map (fun c => match Encoder.call_surface c with
                   | Some cv => Some (Dom.cv_width cv, Dom.cv_height cv)
                   | None => None
                   end)
         (Dom.calls (Converter.convertImage Sample.platform Sample.photo_png options))
     = [Some (400%float, 400%float)]
  /\ Resizer.targetDimensions 1000 500
       (Sample.resizeOptions (Some 400%float) (Some 400%float) (Some true) None None)
     = (400%float, 200%float)
  /\ (JS.Math_round (1000 * JS.Math_min (400 / 1000) (400 / 500)),
      JS.Math_round (500 * JS.Math_min (400 / 1000) (400 / 500)))
     = (400%float, 200%float).
Proof. repeat split; vm_compute; reflexivity. Qed.

(** ** The calls an operation makes *)

Section Calls.

Import Dom Encoder.

Context {A B : Type}.
Variable Q : Call -> Prop.

Lemma all_calls_bind (m : Async A) (k : A -> Async B) :
  all_calls Q m ->
  (forall a, outcome m = Resolved a -> all_calls Q (k a)) ->
  all_calls Q (bind m k).
Proof.
  unfold all_calls, calls, outcome, bind. intros Hm Hk.
  destruct m as [l [a | e |]]; simpl in *; auto.
  specialize (Hk a eq_refl). destruct (k a) as [l' r]. simpl in *.
  apply Forall_app. now split.
Qed.

Lemma all_calls_rethrow (prefix : string) (m : Async A) :
  all_calls Q m -> all_calls Q (rethrow prefix m).
Proof.
  unfold all_calls, calls, rethrow.
  now destruct m as [l [a | [msg|] |]].
Qed.

Lemma all_calls_perform (c : Call) (r : Outcome A) : Q c -> all_calls Q (perform c r).
Proof. intros H. unfold all_calls. simpl. now constructor. Qed.

Lemma all_calls_settle (r : Outcome A) : all_calls Q (settle r).
Proof. constructor. Qed.

Lemma all_calls_resolve (a : A) : all_calls Q (resolve a).
Proof. constructor. Qed.

Lemma all_calls_reject (msg : string) : all_calls Q (@reject A msg).
Proof. constructor. Qed.

End Calls.

Ltac step_calls :=
  first
    [ apply all_calls_resolve
    | apply all_calls_reject
    | apply all_calls_settle
    | apply all_calls_rethrow
    | apply all_calls_perform
    | apply all_calls_bind; [|intros ? ?]
    | match goal with
      | |- Encoder.all_calls _ (match ?x with _ => _ end) => destruct x eqn:?
      end ].

Ltac walk_calls := cbv zeta; repeat (step_calls; cbv zeta).

(** ** The quality handed to the encoders *)

Section Quality.

Import JS Dom Encoder.

Variable P : Platform.
Variable file : File.

Lemma quality_raster o :
  all_calls (quality_is (or_default (Converter.quality o) 0.92))
    (Converter.convertRasterFormat P file o).
Proof.
  unfold Converter.convertRasterFormat, Converter.encode.
  walk_calls. all: intros q; simpl; congruence.
Qed.

Lemma quality_svg o :
  all_calls (quality_is (or_default (Converter.quality o) 0.92))
    (Converter.convertSvgToRaster P file o).
Proof.
  unfold Converter.convertSvgToRaster, Converter.encode.
  walk_calls. all: intros q; simpl; congruence.
Qed.

Lemma quality_pdf o :
  all_calls (quality_is (or_default (Converter.quality o) 0.92))
    (Converter.convertPdfToRaster P file o).
Proof.
  unfold Converter.convertPdfToRaster, Converter.renderFirstPage, Converter.encode.
  walk_calls. all: intros q; simpl; congruence.
Qed.

Lemma quality_heic o :
  all_calls (quality_is (or_default (Converter.quality o) 0.92))
    (Converter.convertHeicToRaster P file o).
Proof.
  unfold Converter.convertHeicToRaster.
  walk_calls. all: intros q; simpl; congruence.
Qed.

Lemma quality_convert o :
  all_calls (quality_is (or_default (Converter.quality o) 0.92))
    (Converter.convertImage P file o).
Proof.
  rewrite convertImage_dispatch.
  destruct (FormatDetector.detect file); simpl;
    auto using quality_raster, quality_svg, quality_pdf, quality_heic.
  apply all_calls_reject.
Qed.

Lemma quality_resize o :
  all_calls (quality_is (or_default (Resizer.quality o) 0.92))
    (Resizer.resizeImage P file o).
Proof.
  unfold Resizer.resizeImage, Converter.encode.
  walk_calls. all: intros q; simpl; congruence.
Qed.

Lemma quality_compress o :
  all_calls (quality_is (or_default (Compressor.quality o) 0.8))
    (Compressor.compressImage P file o).
Proof.
  unfold Compressor.compressImage.
  walk_calls. all: intros q; simpl; congruence.
Qed.

Lemma truthy_spec (q : number) :
  truthy q = match Prim2SF q with
             | S754_zero _ | S754_nan => false
             | _ => true
             end.
Proof.
  unfold truthy, PrimFloat.is_nan. rewrite !FloatAxioms.eqb_spec.
  change (Prim2SF 0) with (S754_zero false). unfold SFeqb.
  destruct (Prim2SF q) as [s | [] | | [] m e]; simpl; try reflexivity.
  all: now rewrite Z.compare_refl, Pos.compare_cont_refl.
Qed.

Lemma out_of_range_truthy (q : number) :
  PrimFloat.ltb q 0 = true \/ PrimFloat.ltb 1 q = true -> truthy q = true.
Proof.
  rewrite truthy_spec, !FloatAxioms.ltb_spec.
  change (Prim2SF 0) with (S754_zero false).
  change (Prim2SF 1) with (S754_finite false 4503599627370496 (-52)).
  unfold SFltb.
  destruct (Prim2SF q) as [s | [] | | [] m e]; simpl; intuition discriminate.
Qed.

End Quality.

(** ** Success with a cooperating browser *)

Section Delivery.

Import JS Dom Encoder.

Variable P : Platform.
Variable file : File.
Hypothesis browser : cooperative P file.

Lemma encode_delivers {B} (cv : Canvas) (mime : string) (q : number) (failure : string)
    (k : Blob -> B) :
  encoded_with q (bind (Converter.encode P cv mime q failure) (fun b => resolve (k b))).
Proof.
  unfold Converter.encode, encoded_with.
  destruct (toBlob P cv mime q) as [b|] eqn:E;
    [|now destruct (surface_encodes P file browser cv mime q)].
  simpl. split; [now eexists | reflexivity].
Qed.

Lemma raster_delivers o :
  encoded_with (or_default (Converter.quality o) 0.92) (Converter.convertRasterFormat P file o).
Proof.
  unfold Converter.convertRasterFormat.
  destruct (loadImage P (as_blob file)) as [img|] eqn:E;
    [|now destruct (image_loads P file browser)].
  destruct (Converter.rasterDimensions _ _ o) as [w h].
  rewrite (context_is_had P file browser). apply encode_delivers.
Qed.

Lemma svg_delivers o :
  encoded_with (or_default (Converter.quality o) 0.92) (Converter.convertSvgToRaster P file o).
Proof.
  unfold Converter.convertSvgToRaster.
  destruct (readAsText P file) as [text|] eqn:E;
    [|now destruct (text_reads P file browser)].
  destruct (btoa P text) as [encoded|] eqn:E1;
    [|now destruct (text_encodes P file browser text)].
  destruct (loadSvg P _) as [img|] eqn:E2;
    [|now destruct (svg_loads P file browser _ E2)].
  cbv zeta. rewrite (context_is_had P file browser). apply encode_delivers.
Qed.

Lemma renderFirstPage_delivers o :
  exists pdf canvas,
    Converter.renderFirstPage P file o = ([GetPage pdf 1], Resolved canvas).
Proof.
  destruct (document_loads P file browser) as [pdf Hpdf].
  destruct (page_loads P file browser pdf 1%float) as [page Hpage].
  exists pdf. unfold Converter.renderFirstPage.
  rewrite Hpdf. unfold settle, perform. cbn [bind]. rewrite Hpage.
  cbn [bind]. cbv zeta. rewrite (context_is_had P file browser).
  cbn [negb bind]. rewrite (page_renders P file browser).
  simpl. now eexists.
Qed.

Lemma pdf_delivers o :
  encoded_with (or_default (Converter.quality o) 0.92) (Converter.convertPdfToRaster P file o).
Proof.
  unfold Converter.convertPdfToRaster.
  destruct (renderFirstPage_delivers o) as (pdf & canvas & ->).
  unfold rethrow, bind at 1. cbv zeta.
  match goal with
  | |- encoded_with _ (let (l', r) := bind (Converter.encode P ?cv ?mime ?q ?f) ?k in _) =>
      pose proof (encode_delivers cv mime q f
                    (fun blob => Converter.Build_ConversionResult blob (createObjectURL P blob)
                                   (Regex.replace_suffix_ci (name file) ".pdf"
                                      ("." ++ Converter.format_str (Converter.format o)))
                                   (size (as_blob file)) (size blob) (Converter.format o))) as H
  end.
  unfold Converter.encode in *.
  destruct (toBlob P _ _ _) as [b|]; simpl in *; [|now destruct H as [[a H] _]].
  split; [now eexists | reflexivity].
Qed.

Lemma heic_delivers o :
  encoded_with (or_default (Converter.quality o) 0.92) (Converter.convertHeicToRaster P file o).
Proof.
  unfold Converter.convertHeicToRaster. cbv zeta.
  destruct (heic_converts P file browser
              ("image/" ++ Converter.format_str (Converter.format o))
              (or_default (Converter.quality o) 0.92)) as [b [H | [l H]]];
    rewrite H; simpl; (split; [now eexists | reflexivity]).
Qed.

Lemma convert_delivers o :
  FormatDetector.detect file <> FormatDetector.Unsupported ->
  encoded_with (or_default (Converter.quality o) 0.92) (Converter.convertImage P file o).
Proof.
  intros Hk. rewrite convertImage_dispatch.
  destruct (FormatDetector.detect file); simpl;
    auto using raster_delivers, svg_delivers, pdf_delivers, heic_delivers.
  now destruct Hk.
Qed.

Lemma resize_delivers o :
  encoded_with (or_default (Resizer.quality o) 0.92) (Resizer.resizeImage P file o).
Proof.
  unfold Resizer.resizeImage.
  destruct (loadImage P (as_blob file)) as [img|] eqn:E;
    [|now destruct (image_loads P file browser)].
  cbv zeta. destruct (Resizer.targetDimensions _ _ o) as [w h].
  rewrite (context_is_had P file browser). apply encode_delivers.
Qed.

Lemma compress_delivers o :
  encoded_with (or_default (Compressor.quality o) 0.8) (Compressor.compressImage P file o).
Proof.
  unfold Compressor.compressImage. cbv zeta.
  match goal with
  | |- context [imageCompression P file ?cfg] =>
      destruct (file_compresses P file browser cfg) as [f ->]
  end.
  simpl. split; [now eexists | reflexivity].
Qed.

End Delivery.

Lemma sample_cooperative (file : Dom.File) : Encoder.cooperative Sample.platform file.
Proof.
  constructor; simpl; intros; try discriminate; try reflexivity.
  - eexists. left. reflexivity.
  - now eexists.
  - now eexists.
  - now eexists.
Qed.




(** C10.  A quality of 0 is the same as no quality: [convertImage],
    [resizeImage] and [compressImage] return the same result, after the same
    calls, for [quality: 0] as for an options value without quality, and
    the encoder is given the default, 0.92 for convert and resize and 0.8
    for compress. *)
Theorem zero_quality_is_default (P : Dom.Platform) (file : Dom.File) :
  (forall format width height lock scale,
     Converter.convertImage P file
       {| Converter.format := format; Converter.quality := Some 0%float;
          Converter.width := width; Converter.height := height;
          Converter.maintainAspectRatio := lock; Converter.scale := scale |}
     = Converter.convertImage P file
         {| Converter.format := format; Converter.quality := None;
            Converter.width := width; Converter.height := height;
            Converter.maintainAspectRatio := lock; Converter.scale := scale |})
  /\ (forall width height lock format,
        Resizer.resizeImage P file
          {| Resizer.width := width; Resizer.height := height;
             Resizer.maintainAspectRatio := lock;
             Resizer.quality := Some 0%float; Resizer.format := format |}
        = Resizer.resizeImage P file
            {| Resizer.width := width; Resizer.height := height;
               Resizer.maintainAspectRatio := lock;
               Resizer.quality := None; Resizer.format := format |})
  /\ (forall maxSizeMB maxWidthOrHeight useWebWorker preserveExif,
        Compressor.compressImage P file
          {| Compressor.maxSizeMB := maxSizeMB;
             Compressor.maxWidthOrHeight := maxWidthOrHeight;
             Compressor.useWebWorker := useWebWorker;
             Compressor.quality := Some 0%float;
             Compressor.preserveExif := preserveExif |}
        = Compressor.compressImage P file
            {| Compressor.maxSizeMB := maxSizeMB;
               Compressor.maxWidthOrHeight := maxWidthOrHeight;
               Compressor.useWebWorker := useWebWorker;
               Compressor.quality := None;
               Compressor.preserveExif := preserveExif |})
  /\ (forall format width height lock scale,
        Encoder.all_calls (Encoder.quality_is 0.92)
          (Converter.convertImage P file
             {| Converter.format := format; Converter.quality := Some 0%float;
                Converter.width := width; Converter.height := height;
                Converter.maintainAspectRatio := lock; Converter.scale := scale |}))
  /\ (forall width height lock format,
        Encoder.all_calls (Encoder.quality_is 0.92)
          (Resizer.resizeImage P file
             {| Resizer.width := width; Resizer.height := height;
                Resizer.maintainAspectRatio := lock;
                Resizer.quality := Some 0%float; Resizer.format := format |}))
  /\ (forall maxSizeMB maxWidthOrHeight useWebWorker preserveExif,
        Encoder.all_calls (Encoder.quality_is 0.8)
          (Compressor.compressImage P file
             {| Compressor.maxSizeMB := maxSizeMB;
                Compressor.maxWidthOrHeight := maxWidthOrHeight;
                Compressor.useWebWorker := useWebWorker;
                Compressor.quality := Some 0%float;
                Compressor.preserveExif := preserveExif |})).
Proof.
  repeat split; try reflexivity; intros.
  - match goal with
    | |- Encoder.all_calls _ (_ _ _ ?o) => exact (quality_convert P file o)
    end.
  - match goal with
    | |- Encoder.all_calls _ (_ _ _ ?o) => exact (quality_resize P file o)
    end.
  - match goal with
    | |- Encoder.all_calls _ (_ _ _ ?o) => exact (quality_compress P file o)
    end.
Qed.

(** ** What an operation resolves with *)

Section Results.

Import Dom Encoder.

Context {A B : Type}.

Lemma resolves_bind (R : B -> Prop) (m : Async A) (k : A -> Async B) :
  (forall a, outcome m = Resolved a -> resolves_with R (k a)) ->
  resolves_with R (bind m k).
Proof.
  unfold resolves_with, outcome, bind. intros Hk b.
  destruct m as [l [a | e |]]; simpl in *; try discriminate.
  specialize (Hk a eq_refl b). now destruct (k a).
Qed.

Lemma resolves_rethrow (R : A -> Prop) (prefix : string) (m : Async A) :
  resolves_with R m -> resolves_with R (rethrow prefix m).
Proof.
  unfold resolves_with, outcome, rethrow.
  destruct m as [l [a | [msg|] |]]; simpl; intros H b Hb; try discriminate; auto.
Qed.

Lemma resolves_perform (R : A -> Prop) (c : Call) (r : Outcome A) :
  (forall a, r = Resolved a -> R a) -> resolves_with R (perform c r).
Proof. intros H a. simpl. apply H. Qed.

Lemma resolves_settle (R : A -> Prop) (r : Outcome A) :
  (forall a, r = Resolved a -> R a) -> resolves_with R (settle r).
Proof. intros H a. simpl. apply H. Qed.

Lemma resolves_resolve (R : A -> Prop) (a : A) : R a -> resolves_with R (resolve a).
Proof. intros H b Hb. simpl in Hb. now inversion Hb; subst. Qed.

Lemma resolves_reject (R : A -> Prop) (msg : string) : resolves_with R (@reject A msg).
Proof. intros b Hb. discriminate. Qed.

End Results.

Ltac step_result :=
  first
    [ apply resolves_resolve
    | apply resolves_reject
    | apply resolves_rethrow
    | apply resolves_bind; intros ? ?
    | match goal with
      | |- Encoder.resolves_with _ (match ?x with _ => _ end) => destruct x eqn:?
      end ].

Ltac walk_result := cbv zeta; repeat (step_result; cbv zeta).

(** ** Compression *)

Section Compression.

Import JS Dom Encoder.

Lemma compress_result (P : Platform) (file : File) (o : Compressor.CompressionOptions) :
  resolves_with
    (fun r =>
       exists cfg compressedFile,
         imageCompression P file cfg = Resolved compressedFile
         /\ Compressor.blob r = compressedFile
         /\ Compressor.originalSize r = size (as_blob file)
         /\ Compressor.compressedSize r = size (as_blob compressedFile)
         /\ Compressor.compressionRatio r
            = Math_round ((1 - size (as_blob compressedFile) / size (as_blob file)) * 100))
    (Compressor.compressImage P file o).
Proof.
  unfold Compressor.compressImage. walk_result.
  simpl in H. eexists _, a. repeat split. exact H.
Qed.

End Compression.

(** C9.  When [compressImage] succeeds, the compression ratio of its result
    is [round ((1 - newSize / originalSize) * 100)], and [originalSize] and
    [compressedSize] are the byte sizes of the input file and of the blob
    the compressor returned. *)
Theorem compression_ratio_reported (P : Dom.Platform) (file : Dom.File)
    (options : Compressor.CompressionOptions) (log : list Dom.Call)
    (result : Compressor.CompressionResult) :
  Compressor.compressImage P file options = (log, Dom.Resolved result) ->
  exists cfg compressedFile,
    Dom.imageCompression P file cfg = Dom.Resolved compressedFile
    /\ Compressor.blob result = compressedFile
    /\ Compressor.originalSize result = Dom.size (Dom.as_blob file)
    /\ Compressor.compressedSize result = Dom.size (Dom.as_blob compressedFile)
    /\ Compressor.compressionRatio result
       = JS.Math_round
           ((1 - Dom.size (Dom.as_blob compressedFile) / Dom.size (Dom.as_blob file)) * 100).
Proof.
  intros H. apply (compress_result P file options result).
  unfold Dom.outcome. now rewrite H.
Qed.

(** C8.  The compression ladder is monotone: for levels [a < b] in 1..5,
    neither the size limit nor the quality of level [b] exceeds that of
    level [a]. *)
Theorem compression_ladder_monotone (a b : Z) :
  (1 <= a)%Z -> (a < b)%Z -> (b <= 5)%Z ->
  PrimFloat.leb
    (ImageConverterVue.maxSizeMB (ImageConverterVue.getCompressionSettings (JS.of_Z b)))
    (ImageConverterVue.maxSizeMB (ImageConverterVue.getCompressionSettings (JS.of_Z a)))
  = true
  /\ PrimFloat.leb
       (ImageConverterVue.quality (ImageConverterVue.getCompressionSettings (JS.of_Z b)))
       (ImageConverterVue.quality (ImageConverterVue.getCompressionSettings (JS.of_Z a)))
     = true.
Proof.
  intros Ha Hab Hb.
  assert (Ea : (a = 1 \/ a = 2 \/ a = 3 \/ a = 4)%Z) by lia.
  assert (Eb : (b = 2 \/ b = 3 \/ b = 4 \/ b = 5)%Z) by lia.
  destruct Ea as [-> | [-> | [-> | ->]]];
    destruct Eb as [-> | [-> | [-> | ->]]];
    try lia; split; vm_compute; reflexivity.
Qed.

Lemma compression_ladder_monotone_witness :
  PrimFloat.leb
    (ImageConverterVue.maxSizeMB (ImageConverterVue.getCompressionSettings 5))
    (ImageConverterVue.maxSizeMB (ImageConverterVue.getCompressionSettings 1))
  = true
  /\ PrimFloat.leb
       (ImageConverterVue.quality (ImageConverterVue.getCompressionSettings 5))
       (ImageConverterVue.quality (ImageConverterVue.getCompressionSettings 1))
     = true.
Proof. exact (compression_ladder_monotone 1 5 ltac:(lia) ltac:(lia) ltac:(lia)). Defined.

Lemma compression_ratio_reported_witness :
  exists result,
    Dom.outcome (Compressor.compressImage Sample.platform Sample.photo_png
                   (Sample.compressOptions None)) = Dom.Resolved result
    /\ Compressor.originalSize result = 1000%float
    /\ Compressor.compressedSize result = 300%float
    /\ Compressor.compressionRatio result = 70%float.
Proof.
  eexists. split; [reflexivity|].
  destruct (compression_ratio_reported Sample.platform Sample.photo_png
              (Sample.compressOptions None) _ _ eq_refl)
    as (cfg & compressedFile & _ & Hblob & Hsize & Hnew & Hratio).
  rewrite Hsize, Hnew, Hratio, <- Hblob. repeat split; reflexivity.
Defined.

(** ** Output file names *)

Section FileNames.

Import JS Dom Encoder.

Variable P : Platform.
Variable file : File.

Lemma split_last_none (sep : ascii -> bool) (s : string) :
  Regex.forallb_str (fun c => negb (sep c)) s = true -> Regex.split_last sep s = None.
Proof.
  induction s as [|c r IH]; simpl; [reflexivity|].
  intros H. apply andb_true_iff in H as [Hc Hr].
  rewrite (IH Hr). now destruct (sep c).
Qed.

Lemma split_last_app (sep : ascii -> bool) (stem : string) (c : ascii) (ext : string) :
  sep c = true -> Regex.forallb_str (fun c => negb (sep c)) ext = true ->
  Regex.split_last sep (stem ++ String c ext) = Some (stem, c, ext).
Proof.
  intros Hc Hext. induction stem as [|d stem IH]; simpl.
  - now rewrite (split_last_none _ _ Hext), Hc.
  - now rewrite IH.
Qed.

(** The rule of [convertRasterFormat] and [resizeImage] on a name with an
    extension: the extension goes, the replacement comes. *)
Lemma replace_ext_strips (stem ext by_ : string) :
  ext <> "" ->
  Regex.forallb_str (fun c => negb (Ascii.eqb Regex.dot c)) ext = true ->
  Regex.replace_ext (stem ++ "." ++ ext) by_ = stem ++ by_.
Proof.
  intros Hne Hext. unfold Regex.replace_ext.
  change (stem ++ "." ++ ext) with (stem ++ String Regex.dot ext).
  rewrite split_last_app; auto. now destruct ext.
Qed.

Lemma filename_raster o :
  resolves_with
    (fun r => Converter.filename r
              = Regex.replace_ext (name file)
                  ("." ++ Converter.extension (Converter.format o)))
    (Converter.convertRasterFormat P file o).
Proof. unfold Converter.convertRasterFormat. walk_result. reflexivity. Qed.

Lemma filename_heic o :
  resolves_with
    (fun r => Converter.filename r
              = Regex.replace_suffix_ci (name file) ".heic"
                  ("." ++ Converter.format_str (Converter.format o)))
    (Converter.convertHeicToRaster P file o).
Proof. unfold Converter.convertHeicToRaster. walk_result. reflexivity. Qed.

Lemma filename_resize o :
  resolves_with
    (fun r =>
       exists ext,
         Resizer.filename r
         = Regex.replace_ext (name file)
             ("_" ++ toString (numberToString P) (Resizer.newWidth r) ++ "x"
                  ++ toString (numberToString P) (Resizer.newHeight r) ++ "." ++ ext)
         /\ ext = Converter.extension
                     match Resizer.format o with
                     | Some f => f
                     | None => Resizer.getFormatFromFile file
                     end)
    (Resizer.resizeImage P file o).
Proof. unfold Resizer.resizeImage. walk_result. eexists. split; reflexivity. Qed.

Lemma filename_remove_background o :
  resolves_with
    (fun r => BackgroundRemover.filename r
              = Regex.replace_ext_noslash (name file) "" ++ "_no-bg."
                ++ BackgroundRemover.format_str
                     match BackgroundRemover.format o with
                     | Some f => f
                     | None => BackgroundRemover.png
                     end)
    (BackgroundRemover.removeBgFromImage P file o).
Proof. unfold BackgroundRemover.removeBgFromImage. walk_result. reflexivity. Qed.

End FileNames.

Lemma resize_filename_example :
  exists r,
    Dom.outcome
      (Resizer.resizeImage Sample.platform Sample.photo_png
         (Sample.resizeOptions (Some 400%float) (Some 300%float) (Some false) None None))
    = Dom.Resolved r
    /\ Resizer.filename r = "photo_400x300.png".
Proof. eexists. split; reflexivity. Qed.

Lemma remove_background_filename_example :
  exists r,
    Dom.outcome
      (BackgroundRemover.removeBgFromImage Sample.platform Sample.photo_png
         {| BackgroundRemover.format := Some BackgroundRemover.jpg;
            BackgroundRemover.quality := None |})
    = Dom.Resolved r
    /\ BackgroundRemover.filename r = "photo_no-bg.jpg".
Proof. eexists. split; reflexivity. Qed.

Section Suffixes.

Lemma length_app (a b : string) :
  String.length (a ++ b) = String.length a + String.length b.
Proof. induction a as [|c a IH]; simpl; [reflexivity | now rewrite IH]. Qed.

Lemma app_tail_unique (a b x y : string) :
  a ++ x = b ++ y -> String.length x = String.length y -> x = y.
Proof.
  revert b. induction a as [|c a IH]; intros [|d b] H Hlen; simpl in H.
  - exact H.
  - subst x. simpl in Hlen. rewrite length_app in Hlen. lia.
  - subst y. simpl in Hlen. rewrite length_app in Hlen. lia.
  - injection H as _ H. eauto.
Qed.

(** A name with the extension .heif has not the extension .heic. *)
Lemma heif_is_not_heic (stem : string) :
  JS.endsWith (JS.toLowerCase (stem ++ ".heif")) ".heic" = false.
Proof.
  apply not_true_is_false. intros H.
  apply endsWith_spec in H as [s' H]. rewrite toLowerCase_app in H.
  apply app_tail_unique in H; [discriminate | reflexivity].
Qed.

Lemma heif_name_unchanged (P : Dom.Platform) (file : Dom.File)
    (o : Converter.ConversionOptions) (stem : string) :
  Dom.name file = stem ++ ".heif" ->
  Encoder.resolves_with (fun r => Converter.filename r = Dom.name file)
    (Converter.convertHeicToRaster P file o).
Proof.
  intros Hname r Hr. rewrite (filename_heic P file o r Hr).
  unfold Regex.replace_suffix_ci. now rewrite Hname, heif_is_not_heic.
Qed.

End Suffixes.

(** C6.  The output name of a HEIF input keeps its extension: [photo.heif]
    converted to jpg is named [photo.heif], not [photo.jpg], because
    [convertHeicToRaster] replaces the extension .heic only. *)
Theorem heif_output_keeps_heif_name :
  FormatDetector.detect Sample.photo_heif = FormatDetector.Heic
  /\ exists r,
       Dom.outcome
         (Converter.convertImage Sample.platform Sample.photo_heif
            (Sample.convertOptions Converter.jpg None None None None))
       = Dom.Resolved r
       /\ Converter.filename r = "photo.heif"
       /\ Converter.filename r <> "photo.jpg".
Proof.
  split; [reflexivity|]. eexists. split; [reflexivity|].
  split; [reflexivity | discriminate].
Qed.

(** ** Surfaces and the white background *)

Section Surfaces.

Import JS Dom Encoder.

Variable P : Platform.
Variable file : File.

Ltac surface :=
  intros cv Hcv; simpl in Hcv; injection Hcv as <-;
  first [ reflexivity
        | eexists _, _, _, _; split; [split; reflexivity|];
          split; reflexivity ].

(** A white rectangle of the size the surface was given covers exactly the
    surface when the canvas stores that size as it is. *)
Lemma white_behind_first cv w h src rest :
  sized w h cv -> canvas_size w h ->
  paints cv = FillRect "#FFFFFF" 0 0 w h :: src :: rest ->
  is_fill src = false ->
  white_first cv.
Proof.
  intros [Hw Hh] [Hw' Hh'] Hp Hs. exists src, rest. split; [|exact Hs].
  now rewrite Hw, Hh, Hw', Hh'.
Qed.

Lemma alpha_raster o :
  all_calls (white_rule (Converter.is_jpg (Converter.format o)))
    (Converter.convertRasterFormat P file o).
Proof.
  unfold Converter.convertRasterFormat, Converter.encode. walk_calls.
  destruct (Converter.is_jpg (Converter.format o)); surface.
Qed.

Lemma alpha_svg o :
  all_calls (white_rule (Converter.is_jpg (Converter.format o)))
    (Converter.convertSvgToRaster P file o).
Proof.
  unfold Converter.convertSvgToRaster, Converter.encode. walk_calls.
  destruct (Converter.is_jpg (Converter.format o)); surface.
Qed.

Lemma alpha_resize o :
  all_calls
    (white_rule
       (Converter.is_jpg match Resizer.format o with
                         | Some f => f
                         | None => Resizer.getFormatFromFile file
                         end))
    (Resizer.resizeImage P file o).
Proof.
  unfold Resizer.resizeImage, Converter.encode. walk_calls.
  destruct (Converter.is_jpg _); surface.
Qed.

Lemma renderFirstPage_surface o :
  resolves_with
    (fun cv => exists page viewport,
       cv = draw (RenderPage page viewport)
              (set_height (vp_height viewport)
                 (set_width (vp_width viewport) createCanvas)))
    (Converter.renderFirstPage P file o).
Proof.
  unfold Converter.renderFirstPage. walk_result. now eexists _, _.
Qed.

(** The PDF path hands the encoder a surface of the size of the viewport,
    on which the page was rendered first; for JPEG the pixels are then put
    over a white rectangle on a second surface of the size of the first,
    which is drawn back. *)
Lemma pdf_surface o :
  all_calls
    (fun c =>
       forall cv, call_surface c = Some cv ->
         exists page viewport,
           let w := canvas_dimension 300 (vp_width viewport) in
           let h := canvas_dimension 150 (vp_height viewport) in
           let rendered := [RenderPage page viewport] in
           (sized (vp_width viewport) (vp_height viewport) cv
            /\ ops cv = rendered)
           \/ (Converter.is_jpg (Converter.format o) = true
               /\ sized (canvas_dimension 300 w) (canvas_dimension 150 h) cv
               /\ ops cv
                  = [DrawCanvas (canvas_dimension 300 w) (canvas_dimension 150 h)
                       [FillRect "#FFFFFF" 0 0 w h; PutImageData 0 0 w h rendered 0 0]
                       0 0]))
    (Converter.convertPdfToRaster P file o).
Proof.
  unfold Converter.convertPdfToRaster, Converter.encode.
  apply all_calls_bind.
  - apply all_calls_rethrow. unfold Converter.renderFirstPage. walk_calls.
    all: discriminate.
  - intros canvas Hcanvas.
    assert (Hr : exists page viewport,
               canvas = draw (RenderPage page viewport)
                          (set_height (vp_height viewport)
                             (set_width (vp_width viewport) createCanvas))).
    { apply (renderFirstPage_surface o canvas). revert Hcanvas.
      unfold outcome, rethrow.
      destruct (Converter.renderFirstPage P file o) as [l [c | [msg|] |]];
        simpl; congruence. }
    destruct Hr as (page & viewport & ->).
    walk_calls. intros cv Hcv. simpl in Hcv. injection Hcv as <-.
    exists page, viewport. cbv zeta.
    destruct (Converter.is_jpg (Converter.format o));
      [|left; split; [split|]; reflexivity].
    unfold Converter.whiteBackground.
    destruct (getContext2d P _);
      [ right; split; [|split; [split|]]; reflexivity
      | left; split; [split|]; reflexivity ].
Qed.

(** [removeBgFromImage] never fills its surface, whatever the format. *)
Lemma remove_background_never_fills o :
  all_calls (alpha_rule false) (BackgroundRemover.removeBgFromImage P file o).
Proof.
  unfold BackgroundRemover.removeBgFromImage, Converter.encode. walk_calls.
  - discriminate.
  - surface.
Qed.

End Surfaces.

(** C7.  The white background of JPEG output is not applied by every
    transform that draws on a surface: [removeBgFromImage] with format jpg
    draws the image on a surface that was never filled and encodes it. *)
Theorem remove_background_jpg_not_filled :
  let m :=
    BackgroundRemover.removeBgFromImage Sample.platform Sample.photo_png
      {| BackgroundRemover.format := Some BackgroundRemover.jpg;
         BackgroundRemover.quality := None |} in
  let surface :=
    {| Dom.cv_width := 1000; Dom.cv_height := 500;
       Dom.ops := [Dom.DrawImage Sample.image 0 0 None] |} in
  Dom.calls m
  = [Dom.RemoveBackground Sample.photo_png; Dom.ToBlob surface "image/jpg" 0.95]
  /\ Encoder.no_fill surface
  /\ ~ Encoder.white_first surface.
Proof.
  repeat split.
  intros (src & rest & H & _). discriminate.
Qed.

(** ** The result of a resize *)

Section ResizeResult.

Import JS Dom Encoder.

(** The result of [resizeImage] records the dimensions of the decoded image
    and the target dimensions computed from them; the surface handed to
    the encoder was given the target dimensions. *)
Lemma resize_result_dimensions (P : Platform) (file : File) (o : Resizer.ResizeOptions) :
  resolves_with
    (fun r =>
       (Resizer.newWidth r, Resizer.newHeight r)
       = Resizer.targetDimensions (Resizer.originalWidth r) (Resizer.originalHeight r) o
       /\ exists img, loadImage P (as_blob file) = Some img
                      /\ Resizer.originalWidth r = width img
                      /\ Resizer.originalHeight r = height img)
    (Resizer.resizeImage P file o).
Proof.
  unfold Resizer.resizeImage. walk_result. simpl. split; [now symmetry|].
  now exists i.
Qed.

Lemma resize_surface_dimensions (P : Platform) (file : File) (o : Resizer.ResizeOptions) :
  all_calls
    (fun c => forall cv, call_surface c = Some cv ->
       exists img, loadImage P (as_blob file) = Some img
                   /\ let target := Resizer.targetDimensions (width img) (height img) o in
                      sized (fst target) (snd target) cv)
    (Resizer.resizeImage P file o).
Proof.
  unfold Resizer.resizeImage, Converter.encode. walk_calls.
  intros cv Hcv. simpl in Hcv. injection Hcv as <-. exists i. split; [reflexivity|].
  cbv zeta. rewrite Heqp. now destruct (Converter.is_jpg _).
Qed.

End ResizeResult.



(** * Further properties *)

(** ** Failures *)

Section Failures.

Import Dom Encoder.

Context {A B : Type}.
Variable R : Thrown -> Prop.

Lemma rejects_bind (m : Async A) (k : A -> Async B) :
  rejects_with R m ->
  (forall a, outcome m = Resolved a -> rejects_with R (k a)) ->
  rejects_with R (bind m k).
Proof.
  unfold rejects_with, outcome, bind. intros Hm Hk e.
  destruct m as [l [a | e' |]]; simpl in *; try discriminate.
  - specialize (Hk a eq_refl e). now destruct (k a).
  - intros He. apply Hm. now injection He as <-.
Qed.

Lemma rejects_rethrow (prefix : string) (m : Async A) :
  (forall message, R (ErrorObj (prefix ++ message))) ->
  rejects_with R (rethrow prefix m).
Proof.
  unfold rejects_with, outcome, rethrow. intros H e.
  destruct m as [l [a | [msg|] |]]; simpl; intros He; try discriminate;
    injection He as <-; apply H.
Qed.

Lemma rejects_resolve (a : A) : rejects_with R (resolve a).
Proof. intros e He. discriminate. Qed.

Lemma rejects_reject (message : string) :
  R (ErrorObj message) -> rejects_with R (@reject A message).
Proof. intros H e He. simpl in He. now injection He as <-. Qed.

Lemma rejects_encode (P : Platform) cv mime q failure :
  R (ErrorObj failure) -> rejects_with R (Converter.encode P cv mime q failure).
Proof.
  intros H e. unfold Converter.encode, outcome, perform. simpl.
  destruct (toBlob P cv mime q); intros He; try discriminate. now injection He as <-.
Qed.

End Failures.

Ltac step_reject :=
  first
    [ apply rejects_resolve
    | apply rejects_reject
    | apply rejects_encode
    | apply rejects_rethrow; intros ?
    | apply rejects_bind; [|intros ? ?]
    | match goal with
      | |- Encoder.rejects_with _ (match ?x with _ => _ end) => destruct x eqn:?
      end ].

Ltac walk_reject := cbv zeta; repeat (step_reject; cbv zeta).

Section ProperErrors.

Import JS Dom Encoder.

Variable P : Platform.
Variable file : File.

Lemma proper_literal (c : ascii) (s : string) : proper_error (ErrorObj (String c s)).
Proof. eexists. split; [reflexivity | discriminate]. Qed.

Lemma proper_prefixed (c : ascii) (s message : string) :
  proper_error (ErrorObj (String c s ++ message)).
Proof. eexists. split; [reflexivity | discriminate]. Qed.

Ltac proper := first [apply proper_prefixed | apply proper_literal].

Lemma errors_raster o : rejects_with proper_error (Converter.convertRasterFormat P file o).
Proof. unfold Converter.convertRasterFormat. walk_reject; proper. Qed.

Lemma errors_svg o : rejects_with proper_error (Converter.convertSvgToRaster P file o).
Proof.
  unfold Converter.convertSvgToRaster. walk_reject; try proper.
  intros e He. discriminate.
Qed.

Lemma errors_pdf o : rejects_with proper_error (Converter.convertPdfToRaster P file o).
Proof. unfold Converter.convertPdfToRaster. walk_reject; proper. Qed.

Lemma errors_heic o : rejects_with proper_error (Converter.convertHeicToRaster P file o).
Proof. unfold Converter.convertHeicToRaster. walk_reject; proper. Qed.

Lemma errors_convert o : rejects_with proper_error (Converter.convertImage P file o).
Proof.
  rewrite convertImage_dispatch.
  destruct (FormatDetector.detect file); simpl;
    auto using errors_raster, errors_svg, errors_pdf, errors_heic.
  apply rejects_reject. proper.
Qed.

Lemma errors_resize o : rejects_with proper_error (Resizer.resizeImage P file o).
Proof. unfold Resizer.resizeImage. walk_reject; proper. Qed.

Lemma errors_compress o : rejects_with proper_error (Compressor.compressImage P file o).
Proof. unfold Compressor.compressImage. walk_reject; proper. Qed.

Lemma errors_remove_background o :
  rejects_with proper_error (BackgroundRemover.removeBgFromImage P file o).
Proof. unfold BackgroundRemover.removeBgFromImage. walk_reject; proper. Qed.

End ProperErrors.

(** No raw failure escapes: whatever [convertImage], [resizeImage],
    [compressImage] or [removeBgFromImage] rejects with is an [Error] with a
    message that is not empty. *)
Theorem failures_are_errors (P : Dom.Platform) (file : Dom.File) :
  (forall o, Encoder.rejects_with Encoder.proper_error (Converter.convertImage P file o))
  /\ (forall o, Encoder.rejects_with Encoder.proper_error (Resizer.resizeImage P file o))
  /\ (forall o, Encoder.rejects_with Encoder.proper_error
                  (Compressor.compressImage P file o))
  /\ (forall o, Encoder.rejects_with Encoder.proper_error
                  (BackgroundRemover.removeBgFromImage P file o)).
Proof.
  repeat split; intros o.
  - apply errors_convert.
  - apply errors_resize.
  - apply errors_compress.
  - apply errors_remove_background.
Qed.

(** ** Unsupported files *)

Section DecoderFailures.

Import JS Dom Encoder.

Variable P : Platform.
Variable file : File.

Ltac failed := eexists; reflexivity.

Lemma failed_raster o : rejects_with failed_message (Converter.convertRasterFormat P file o).
Proof. unfold Converter.convertRasterFormat. walk_reject; failed. Qed.

Lemma failed_svg o : rejects_with failed_message (Converter.convertSvgToRaster P file o).
Proof.
  unfold Converter.convertSvgToRaster. walk_reject; try failed.
  intros e He. discriminate.
Qed.

Lemma failed_pdf o : rejects_with failed_message (Converter.convertPdfToRaster P file o).
Proof. unfold Converter.convertPdfToRaster. walk_reject; failed. Qed.

Lemma failed_heic o : rejects_with failed_message (Converter.convertHeicToRaster P file o).
Proof. unfold Converter.convertHeicToRaster. walk_reject; failed. Qed.

Lemma formats_by_kind :
  Converter.getSupportedOutputFormats file
  = match FormatDetector.detect file with
    | FormatDetector.Unsupported => []
    | _ => ["png"; "jpg"; "webp"]
    end.
Proof.
  unfold Converter.getSupportedOutputFormats, FormatDetector.detect.
  repeat match goal with |- context [if ?b then _ else _] => destruct b end;
    reflexivity.
Qed.

End DecoderFailures.

(** [getSupportedOutputFormats] and [convertImage] agree: the list of
    output formats is empty or png, jpg, webp, and it is empty exactly when
    [convertImage] fails with "Unsupported file type". *)
Theorem unsupported_iff_no_output_format (P : Dom.Platform) (file : Dom.File)
    (options : Converter.ConversionOptions) :
  (Converter.getSupportedOutputFormats file = []
   \/ Converter.getSupportedOutputFormats file = ["png"; "jpg"; "webp"])
  /\ (Converter.getSupportedOutputFormats file = [] <->
      exists declared,
        Converter.convertImage P file options
        = ([], Dom.Rejected (Dom.ErrorObj ("Unsupported file type: " ++ declared)))).
Proof.
  rewrite formats_by_kind, convertImage_dispatch. split.
  - destruct (FormatDetector.detect file); auto.
  - split.
    + destruct (FormatDetector.detect file); try discriminate.
      intros _. eexists. reflexivity.
    + intros [declared H].
      assert (Hout : forall m : Dom.Async Converter.ConversionResult,
                 Encoder.rejects_with Encoder.failed_message m ->
                 m = ([], Dom.Rejected (Dom.ErrorObj ("Unsupported file type: " ++ declared))) ->
                 False).
      { intros m Hm ->. destruct (Hm _ eq_refl) as [rest Hrest]. discriminate. }
      destruct (FormatDetector.detect file); simpl in H; try reflexivity; exfalso.
      * exact (Hout _ (failed_svg P file options) H).
      * exact (Hout _ (failed_raster P file options) H).
      * exact (Hout _ (failed_heic P file options) H).
      * exact (Hout _ (failed_pdf P file options) H).
Qed.

(** ** Which files are taken *)

Section Admission.

Import JS Dom.

Lemma listed_type_is_image (t : string) :
  existsb (String.eqb t) ["image/jpeg"; "image/jpg"; "image/png"; "image/webp"] = true ->
  JS.startsWith t "image/" = true.
Proof.
  cbn [existsb]. rewrite !orb_true_iff, !String.eqb_eq.
  intros [-> | [-> | [-> | [-> | H]]]]; try reflexivity. discriminate.
Qed.

Lemma compressible_is_supported (file : File) :
  Compressor.canCompress file = true ->
  FormatDetector.detect file <> FormatDetector.Unsupported.
Proof.
  intros H. apply listed_type_is_image in H.
  unfold FormatDetector.detect. rewrite H.
  repeat match goal with |- context [if ?b then _ else _] => destruct b end;
    discriminate.
Qed.

Lemma canResize_canCompress (file : File) :
  Resizer.canResize file = Compressor.canCompress file.
Proof. reflexivity. Qed.

Lemma toLowerCase_listed (t : string) :
  existsb (String.eqb t) ["image/png"; "image/jpeg"; "image/jpg"; "image/webp"] = true ->
  toLowerCase t = t.
Proof.
  cbn [existsb]. rewrite !orb_true_iff, !String.eqb_eq.
  intros [-> | [-> | [-> | [-> | H]]]]; try reflexivity. discriminate.
Qed.

End Admission.

(** [addFiles] keeps exactly the files that [convertImage] has a decoder
    for: the tests [canCompress] and [canResize] of its filter add nothing. *)
Theorem added_files_are_convertible (newFiles : list Dom.File) :
  ImageConverterVue.imageFiles newFiles
  = filter (fun file =>
              match FormatDetector.detect file with
              | FormatDetector.Unsupported => false
              | _ => true
              end) newFiles.
Proof.
  unfold ImageConverterVue.imageFiles. apply filter_ext. intros file.
  rewrite formats_by_kind.
  change (Resizer.canResize file) with (Compressor.canCompress file).
  pose proof (compressible_is_supported file) as H.
  destruct (FormatDetector.detect file); try reflexivity.
  destruct (Compressor.canCompress file); [now elim H | reflexivity].
Qed.

(** A file that [canRemoveBackground] accepts is accepted by [canCompress]
    and [canResize] as well, and [convertImage] has a decoder for it. *)
Theorem background_removable_is_resizable (file : Dom.File) :
  BackgroundRemover.canRemoveBackground file = true ->
  Compressor.canCompress file = true /\ Resizer.canResize file = true
  /\ FormatDetector.detect file <> FormatDetector.Unsupported.
Proof.
  intros H. unfold BackgroundRemover.canRemoveBackground in H.
  assert (Hc : Compressor.canCompress file = true).
  { unfold Compressor.canCompress. rewrite (toLowerCase_listed _ H).
    revert H. cbn [existsb]. rewrite !orb_true_iff. tauto. }
  repeat split; auto. now apply compressible_is_supported.
Qed.

Lemma background_removable_is_resizable_witness :
  Compressor.canCompress Sample.photo_png = true
  /\ Resizer.canResize Sample.photo_png = true
  /\ FormatDetector.detect Sample.photo_png <> FormatDetector.Unsupported.
Proof. exact (background_removable_is_resizable Sample.photo_png eq_refl). Defined.

(** ** No retry *)

Section Counting.

Import Dom Encoder.

Context {A B : Type}.

Lemma encodes_bind (n1 n2 : nat) (m : Async A) (k : A -> Async B) :
  encodes n1 m -> (forall a, outcome m = Resolved a -> encodes n2 (k a)) ->
  encodes (n1 + n2) (bind m k).
Proof.
  unfold encodes, encodings, calls, outcome, bind. intros [Hle Heq] Hk.
  destruct m as [l [a | e |]]; simpl in *; try (split; [lia | discriminate]).
  specialize (Hk a eq_refl). specialize (Heq a eq_refl).
  destruct (k a) as [l' r]; simpl in *.
  rewrite filter_app, List.length_app. destruct Hk as [Hle' Heq']. split; [lia|].
  intros b Hb. rewrite (Heq' b Hb). lia.
Qed.

Lemma encodes_rethrow (n : nat) (prefix : string) (m : Async A) :
  encodes n m -> encodes n (rethrow prefix m).
Proof.
  unfold encodes, encodings, calls, outcome, rethrow.
  destruct m as [l [a | [msg|] |]]; simpl; intros [Hle Heq]; split; auto; discriminate.
Qed.

Lemma encodes_resolve (a : A) : encodes 0 (resolve a).
Proof. split; [apply Nat.le_refl | reflexivity]. Qed.

Lemma encodes_reject (n : nat) (message : string) : encodes n (@reject A message).
Proof. split; [apply Nat.le_0_l | discriminate]. Qed.

Lemma encodes_settle (r : Outcome A) : encodes 0 (settle r).
Proof. split; [apply Nat.le_refl | reflexivity]. Qed.

Lemma encodes_pending (n : nat) : encodes n (@settle A Pending).
Proof. split; [apply Nat.le_0_l | discriminate]. Qed.

Lemma encodes_perform (c : Call) (r : Outcome A) :
  encodes (if is_encoding c then 1 else 0) (perform c r).
Proof. unfold encodes, encodings. simpl. destruct (is_encoding c); split; auto. Qed.

End Counting.

Section OneEncoding.

Import JS Dom Encoder.

Variable P : Platform.
Variable file : File.

Lemma encodes_encode cv mime q failure :
  encodes 1 (Converter.encode P cv mime q failure).
Proof. unfold Converter.encode. apply (encodes_perform (ToBlob cv mime q)). Qed.

Ltac finish :=
  first [ apply encodes_reject | apply encodes_resolve | apply encodes_pending ].

Ltac encode_then_resolve :=
  apply (encodes_bind 1 0); [apply encodes_encode | intros ? ?; apply encodes_resolve].

Lemma once_raster o : encodes 1 (Converter.convertRasterFormat P file o).
Proof.
  unfold Converter.convertRasterFormat. cbv zeta.
  repeat match goal with
         | |- encodes _ (match ?x with _ => _ end) => destruct x eqn:?
         end; try finish; encode_then_resolve.
Qed.

Lemma once_svg o : encodes 1 (Converter.convertSvgToRaster P file o).
Proof.
  unfold Converter.convertSvgToRaster. cbv zeta.
  repeat match goal with
         | |- encodes _ (match ?x with _ => _ end) => destruct x eqn:?
         end; try finish; encode_then_resolve.
Qed.

Lemma renderFirstPage_encodes_nothing o :
  encodes 0 (Converter.renderFirstPage P file o).
Proof.
  unfold Converter.renderFirstPage. cbv zeta.
  apply (encodes_bind 0 0); [apply encodes_settle | intros pdf _].
  apply (encodes_bind 0 0); [apply (encodes_perform (GetPage pdf 1)) | intros page _].
  destruct (negb _); [apply encodes_reject|].
  apply (encodes_bind 0 0); [apply encodes_settle | intros; apply encodes_resolve].
Qed.

Lemma once_pdf o : encodes 1 (Converter.convertPdfToRaster P file o).
Proof.
  unfold Converter.convertPdfToRaster.
  apply (encodes_bind 0 1).
  - apply encodes_rethrow, renderFirstPage_encodes_nothing.
  - intros canvas _. cbv zeta. encode_then_resolve.
Qed.

Lemma once_heic o : encodes 1 (Converter.convertHeicToRaster P file o).
Proof.
  unfold Converter.convertHeicToRaster. apply encodes_rethrow. cbv zeta.
  apply (encodes_bind 1 0); [apply (encodes_perform (Heic2any _ _ _))|].
  intros out _. destruct out as [b | [|b l]]; simpl;
    first [apply encodes_resolve | apply encodes_reject].
Qed.

Lemma once_convert o : encodes 1 (Converter.convertImage P file o).
Proof.
  rewrite convertImage_dispatch.
  destruct (FormatDetector.detect file); simpl;
    auto using once_raster, once_svg, once_pdf, once_heic.
  apply encodes_reject.
Qed.

Lemma once_resize o : encodes 1 (Resizer.resizeImage P file o).
Proof.
  unfold Resizer.resizeImage. cbv zeta.
  repeat match goal with
         | |- encodes _ (match ?x with _ => _ end) => destruct x eqn:?
         end; try finish; encode_then_resolve.
Qed.

Lemma once_compress o : encodes 1 (Compressor.compressImage P file o).
Proof.
  unfold Compressor.compressImage. apply encodes_rethrow. cbv zeta.
  apply (encodes_bind 1 0); [apply (encodes_perform (ImageCompression _ _))|].
  intros; apply encodes_resolve.
Qed.

Lemma first_page_pdf o : all_calls first_page (Converter.convertPdfToRaster P file o).
Proof.
  unfold Converter.convertPdfToRaster, Converter.renderFirstPage, Converter.encode.
  walk_calls; intros ? ? Hc; congruence.
Qed.

Lemma first_page_convert o : all_calls first_page (Converter.convertImage P file o).
Proof.
  rewrite convertImage_dispatch.
  destruct (FormatDetector.detect file); simpl; try apply first_page_pdf.
  - unfold Converter.convertSvgToRaster, Converter.encode.
    walk_calls; intros ? ? Hc; congruence.
  - unfold Converter.convertRasterFormat, Converter.encode.
    walk_calls; intros ? ? Hc; congruence.
  - unfold Converter.convertHeicToRaster.
    walk_calls; intros ? ? Hc; congruence.
  - apply all_calls_reject.
Qed.

End OneEncoding.

(** Nothing is retried: [convertImage], [resizeImage] and [compressImage]
    call an encoder at most once, and exactly once when they succeed. *)
Theorem one_encoding_per_operation (P : Dom.Platform) (file : Dom.File) :
  (forall o, Encoder.encodes 1 (Converter.convertImage P file o))
  /\ (forall o, Encoder.encodes 1 (Resizer.resizeImage P file o))
  /\ (forall o, Encoder.encodes 1 (Compressor.compressImage P file o)).
Proof.
  split; [|split]; intros o;
    first [apply once_convert | apply once_resize | apply once_compress].
Qed.

(** Whatever the file and the options, the only page [convertImage] asks the
    PDF renderer for is page 1. *)
Theorem pdf_first_page_only (P : Dom.Platform) (file : Dom.File)
    (options : Converter.ConversionOptions) :
  Encoder.all_calls Encoder.first_page (Converter.convertImage P file options).
Proof. apply first_page_convert. Qed.

(** ** What a result reports *)

Section ConvertResults.

Import JS Dom Encoder.

Variable P : Platform.
Variable file : File.

Lemma faithful_raster o :
  resolves_with (faithful_result P file o) (Converter.convertRasterFormat P file o).
Proof. unfold Converter.convertRasterFormat. walk_result. now repeat split. Qed.

Lemma faithful_svg o :
  resolves_with (faithful_result P file o) (Converter.convertSvgToRaster P file o).
Proof.
  unfold Converter.convertSvgToRaster. walk_result; now repeat split.
Qed.

Lemma faithful_pdf o :
  resolves_with (faithful_result P file o) (Converter.convertPdfToRaster P file o).
Proof. unfold Converter.convertPdfToRaster. walk_result. now repeat split. Qed.

Lemma faithful_heic o :
  resolves_with (faithful_result P file o) (Converter.convertHeicToRaster P file o).
Proof. unfold Converter.convertHeicToRaster. walk_result; now repeat split. Qed.

Lemma faithful_convert o :
  resolves_with (faithful_result P file o) (Converter.convertImage P file o).
Proof.
  rewrite convertImage_dispatch.
  destruct (FormatDetector.detect file); simpl;
    auto using faithful_raster, faithful_svg, faithful_pdf, faithful_heic.
  apply resolves_reject.
Qed.

Lemma faithful_resize o :
  resolves_with
    (fun r => Resizer.originalSize r = size (as_blob file)
              /\ Resizer.newSize r = size (Resizer.blob r)
              /\ Resizer.url r = createObjectURL P (Resizer.blob r))
    (Resizer.resizeImage P file o).
Proof. unfold Resizer.resizeImage. walk_result. now repeat split. Qed.

Lemma faithful_remove_background o :
  resolves_with
    (fun r => BackgroundRemover.originalSize r = size (as_blob file)
              /\ BackgroundRemover.newSize r = size (BackgroundRemover.blob r)
              /\ BackgroundRemover.url r = createObjectURL P (BackgroundRemover.blob r))
    (BackgroundRemover.removeBgFromImage P file o).
Proof. unfold BackgroundRemover.removeBgFromImage. walk_result. now repeat split. Qed.

End ConvertResults.

(** On every path, a result reports the byte size of the input file as its
    original size and the byte size of the blob it holds as its new size;
    its URL is the one made for that blob, and a conversion result names
    the format that was asked for. *)
Theorem results_report_true_sizes (P : Dom.Platform) (file : Dom.File) :
  (forall o, Encoder.resolves_with
               (fun r => Converter.originalSize r = Dom.size (Dom.as_blob file)
                         /\ Converter.newSize r = Dom.size (Converter.blob r)
                         /\ Converter.url r = Dom.createObjectURL P (Converter.blob r)
                         /\ Converter.r_format r = Converter.format o)
               (Converter.convertImage P file o))
  /\ (forall o, Encoder.resolves_with
                  (fun r => Resizer.originalSize r = Dom.size (Dom.as_blob file)
                            /\ Resizer.newSize r = Dom.size (Resizer.blob r)
                            /\ Resizer.url r = Dom.createObjectURL P (Resizer.blob r))
                  (Resizer.resizeImage P file o))
  /\ (forall o, Encoder.resolves_with
                  (fun r => BackgroundRemover.originalSize r = Dom.size (Dom.as_blob file)
                            /\ BackgroundRemover.newSize r
                               = Dom.size (BackgroundRemover.blob r)
                            /\ BackgroundRemover.url r
                               = Dom.createObjectURL P (BackgroundRemover.blob r))
                  (BackgroundRemover.removeBgFromImage P file o)).
Proof.
  split; [|split]; intros o.
  - apply faithful_convert.
  - apply faithful_resize.
  - apply faithful_remove_background.
Qed.


(** ** Dimensions *)

Section Dimensions.

Import JS Dom Encoder.

Lemma or_default_falsy (x : option number) (d : number) :
  truthy_opt x = false -> or_default x d = d.
Proof. destruct x as [v|]; simpl; [|reflexivity]. now intros ->. Qed.

(** A dimension that is 0 or NaN counts as absent. *)
Lemma resize_falsy_width (W H : number) (w h : option number) lock q f :
  truthy_opt w = false ->
  Resizer.targetDimensions W H
    {| Resizer.width := w; Resizer.height := h; Resizer.maintainAspectRatio := lock;
       Resizer.quality := q; Resizer.format := f |}
  = Resizer.targetDimensions W H
      {| Resizer.width := None; Resizer.height := h; Resizer.maintainAspectRatio := lock;
         Resizer.quality := q; Resizer.format := f |}.
Proof.
  intros Hw. unfold Resizer.targetDimensions. cbn [Resizer.width Resizer.height
    Resizer.maintainAspectRatio]. rewrite Hw, (or_default_falsy w W Hw). reflexivity.
Qed.

Lemma resize_falsy_height (W H : number) (w h : option number) lock q f :
  truthy_opt h = false ->
  Resizer.targetDimensions W H
    {| Resizer.width := w; Resizer.height := h; Resizer.maintainAspectRatio := lock;
       Resizer.quality := q; Resizer.format := f |}
  = Resizer.targetDimensions W H
      {| Resizer.width := w; Resizer.height := None; Resizer.maintainAspectRatio := lock;
         Resizer.quality := q; Resizer.format := f |}.
Proof.
  intros Hh. unfold Resizer.targetDimensions. cbn [Resizer.width Resizer.height
    Resizer.maintainAspectRatio truthy_opt or_default].
  rewrite Hh, (or_default_falsy h H Hh), !andb_false_r. reflexivity.
Qed.

Lemma raster_falsy_dimensions (W H : number) (w h : option number) f q lock sc :
  truthy_opt w = false -> truthy_opt h = false ->
  Converter.rasterDimensions W H
    {| Converter.format := f; Converter.quality := q; Converter.width := w;
       Converter.height := h; Converter.maintainAspectRatio := lock;
       Converter.scale := sc |}
  = (W, H).
Proof.
  intros Hw Hh. unfold Converter.rasterDimensions.
  cbn [Converter.width Converter.height Converter.maintainAspectRatio].
  rewrite Hw, Hh, (or_default_falsy w W Hw), (or_default_falsy h H Hh).
  now destruct lock as [[]|].
Qed.

End Dimensions.

(** In a resize, a width or height of 0, -0 or NaN is the same as none: the
    target dimensions are those computed without it, and the natural
    dimensions when both are such. *)
Theorem falsy_dimension_is_absent (W H : JS.number) (w h : option JS.number)
    (lock : option bool) (q : option JS.number) (f : option Converter.Format) :
  let options w h :=
    {| Resizer.width := w; Resizer.height := h; Resizer.maintainAspectRatio := lock;
       Resizer.quality := q; Resizer.format := f |} in
  (JS.truthy_opt w = false ->
   Resizer.targetDimensions W H (options w h)
   = Resizer.targetDimensions W H (options None h))
  /\ (JS.truthy_opt h = false ->
      Resizer.targetDimensions W H (options w h)
      = Resizer.targetDimensions W H (options w None))
  /\ (JS.truthy_opt w = false -> JS.truthy_opt h = false ->
      Resizer.targetDimensions W H (options w h) = (W, H)).
Proof.
  intros options. split; [|split].
  - apply resize_falsy_width.
  - apply resize_falsy_height.
  - intros Hw Hh. unfold options.
    rewrite (resize_falsy_width _ _ _ _ _ _ _ Hw), (resize_falsy_height _ _ _ _ _ _ _ Hh).
    unfold Resizer.targetDimensions; simpl. now destruct lock as [[]|].
Qed.


Lemma falsy_dimension_is_absent_witness :
  Resizer.targetDimensions 1000 500
    (Sample.resizeOptions (Some 0%float) (Some 100%float) None None None)
  = (200%float, 100%float)
  /\ Resizer.targetDimensions 1000 500
       (Sample.resizeOptions (Some 400%float) (Some PrimFloat.nan) None None None)
     = (400%float, 200%float)
  /\ Resizer.targetDimensions 1000 500
       (Sample.resizeOptions (Some 0%float) (Some (-0)%float) None None None)
     = (1000%float, 500%float).
Proof.
  destruct (falsy_dimension_is_absent 1000%float 500%float (Some 0%float)
              (Some 100%float) None None None) as (H1 & _ & _).
  destruct (falsy_dimension_is_absent 1000%float 500%float (Some 400%float)
              (Some PrimFloat.nan) None None None) as (_ & H2 & _).
  destruct (falsy_dimension_is_absent 1000%float 500%float (Some 0%float)
              (Some (-0)%float) None None None) as (_ & _ & H3).
  split; [|split].
  - unfold Sample.resizeOptions. rewrite (H1 eq_refl). reflexivity.
  - unfold Sample.resizeOptions. rewrite (H2 eq_refl). reflexivity.
  - exact (H3 eq_refl eq_refl).
Defined.



Section NaturalSize.

Import JS Dom Encoder.

Variable P : Platform.
Variable file : File.

(** Without width and height, [convertRasterFormat] gives the surface the
    size of the image and draws the image at that size, and
    [convertSvgToRaster] does so with the size times the scale. *)
Lemma raster_natural_size o :
  Converter.width o = None -> Converter.height o = None ->
  all_calls
    (fun c => forall cv, call_surface c = Some cv ->
       exists img, loadImage P (as_blob file) = Some img
                   /\ sized (width img) (height img) cv
                   /\ In (DrawImage img 0 0 (Some (width img, height img))) (ops cv))
    (Converter.convertRasterFormat P file o).
Proof.
  intros Hw Hh. unfold Converter.convertRasterFormat, Converter.encode.
  assert (Hd : forall W H, Converter.rasterDimensions W H o = (W, H)).
  { intros W H. unfold Converter.rasterDimensions. rewrite Hw, Hh. simpl.
    now destruct (Converter.maintainAspectRatio o) as [[]|]. }
  walk_calls. intros cv Hcv. simpl in Hcv. injection Hcv as <-.
  rewrite Hd in Heqp. injection Heqp as <- <-. exists i.
  split; [reflexivity|]. split; [now destruct (Converter.is_jpg _)|].
  destruct (Converter.is_jpg _); simpl; auto.
Qed.

Lemma svg_natural_size o :
  Converter.width o = None -> Converter.height o = None ->
  all_calls
    (fun c => forall cv, call_surface c = Some cv ->
       exists img,
         let scale := or_default (Converter.scale o) 2 in
         sized (width img * scale) (height img * scale) cv
         /\ In (DrawImage img 0 0 (Some ((width img * scale)%float,
                                         (height img * scale)%float))) (ops cv))
    (Converter.convertSvgToRaster P file o).
Proof.
  intros Hw Hh. unfold Converter.convertSvgToRaster, Converter.encode.
  rewrite Hw, Hh. walk_calls. intros cv Hcv. simpl in Hcv. injection Hcv as <-.
  exists i. cbv zeta. split; [now destruct (Converter.is_jpg _)|].
  destruct (Converter.is_jpg _); simpl; auto.
Qed.

Lemma sized_canvas_size w h cv :
  sized w h cv -> canvas_size w h -> cv_width cv = w /\ cv_height cv = h.
Proof. intros [Hw Hh] [Hw' Hh']. split; congruence. Qed.

End NaturalSize.

(** An SVG image of 101 by 51 converted at the scale 1.5 is drawn at 151.5
    by 76.5 on a surface of 151 by 76: the canvas drops the fractions. *)
Lemma svg_fractional_size_example :
  let P :=
    {| Dom.loadImage := Dom.loadImage Sample.platform;
       Dom.readAsText := Dom.readAsText Sample.platform;
       Dom.btoa := Dom.btoa Sample.platform;
       Dom.loadSvg := fun _ => Some {| Dom.width := 101; Dom.height := 51; Dom.bitmap := 1 |};
       Dom.getContext2d := Dom.getContext2d Sample.platform;
       Dom.toBlob := Dom.toBlob Sample.platform;
       Dom.createObjectURL := Dom.createObjectURL Sample.platform;
       Dom.heic2any := Dom.heic2any Sample.platform;
       Dom.getDocument := Dom.getDocument Sample.platform;
       Dom.getPage := Dom.getPage Sample.platform;
       Dom.getViewport := Dom.getViewport Sample.platform;
       Dom.renderPage := Dom.renderPage Sample.platform;
       Dom.imageCompression := Dom.imageCompression Sample.platform;
       Dom.removeBackground := Dom.removeBackground Sample.platform;
       Dom.numberToString := Dom.numberToString Sample.platform |} in
  let o :=
    {| Converter.format := Converter.png; Converter.quality := None;
       Converter.width := None; Converter.height := None;
       Converter.maintainAspectRatio := None; Converter.scale := Some 1.5%float |} in
  map (fun c => match Encoder.call_surface c with
                | Some cv => Some (Dom.cv_width cv, Dom.cv_height cv, Dom.ops cv)
                | None => None
                end)
      (Dom.calls (Converter.convertSvgToRaster P (Sample.file "logo.svg" "image/svg+xml") o))
  = [Some (151%float, 76%float,
           [Dom.DrawImage {| Dom.width := 101; Dom.height := 51; Dom.bitmap := 1 |} 0 0
              (Some (151.5%float, 76.5%float))])].
Proof. vm_compute. reflexivity. Qed.



(** ** The rules for output names *)

Section NameRules.

Import JS Dom Encoder.

Lemma replace_ext_no_dot (s by_ : string) :
  Regex.no_dot s = true -> Regex.replace_ext s by_ = s.
Proof. intros H. unfold Regex.replace_ext. now rewrite split_last_none. Qed.

Lemma replace_ext_noslash_no_dot (s by_ : string) :
  Regex.no_dot_or_slash s = true -> Regex.replace_ext_noslash s by_ = s.
Proof. intros H. unfold Regex.replace_ext_noslash. now rewrite split_last_none. Qed.

Lemma replace_ext_noslash_strips (stem ext by_ : string) :
  ext <> "" -> Regex.no_dot_or_slash ext = true ->
  Regex.replace_ext_noslash (stem ++ "." ++ ext) by_ = stem ++ by_.
Proof.
  intros Hne Hext. unfold Regex.replace_ext_noslash.
  change (stem ++ "." ++ ext) with (stem ++ String Regex.dot ext).
  rewrite split_last_app; auto. now destruct ext.
Qed.

Lemma app_empty_r (s : string) : s ++ "" = s.
Proof. induction s as [|c s IH]; simpl; [reflexivity | now rewrite IH]. Qed.

Lemma no_dot_extension (f : Converter.Format) :
  Converter.extension f <> "" /\ Regex.no_dot (Converter.extension f) = true.
Proof. destruct f; split; (discriminate || reflexivity). Qed.

(** Naming a converted file again: the name is the one a single conversion
    to the last format gives. *)
Lemma replace_ext_twice (s ext by_ : string) :
  ext <> "" -> Regex.no_dot ext = true ->
  Regex.replace_ext (Regex.replace_ext s ("." ++ ext)) by_ = Regex.replace_ext s by_.
Proof.
  intros Hne Hext. unfold Regex.replace_ext at 2.
  destruct (Regex.split_last (Ascii.eqb Regex.dot) s) as [[[stem c] [|d rest]]|] eqn:E;
    try reflexivity.
  rewrite replace_ext_strips by assumption.
  unfold Regex.replace_ext. now rewrite E.
Qed.

Lemma length_toLowerCase (s : string) :
  String.length (toLowerCase s) = String.length s.
Proof. induction s as [|c s IH]; simpl; [reflexivity | now rewrite IH]. Qed.

Lemma substring_stem (stem tail : string) :
  String.substring 0 (String.length stem) (stem ++ tail) = stem.
Proof.
  induction stem as [|c stem IH]; simpl.
  - now destruct tail.
  - now rewrite IH.
Qed.

Lemma replace_suffix_ci_strips (stem tail suffix by_ : string) :
  toLowerCase tail = suffix ->
  Regex.replace_suffix_ci (stem ++ tail) suffix by_ = stem ++ by_.
Proof.
  intros Ht. unfold Regex.replace_suffix_ci.
  assert (He : endsWith (toLowerCase (stem ++ tail)) suffix = true).
  { apply endsWith_lower. now exists stem, tail. }
  rewrite He, length_app, <- Ht, length_toLowerCase.
  replace (String.length stem + String.length tail - String.length tail)%nat
    with (String.length stem) by lia.
  now rewrite substring_stem.
Qed.

Lemma replace_suffix_ci_other (s suffix by_ : string) :
  endsWith (toLowerCase s) suffix = false ->
  Regex.replace_suffix_ci s suffix by_ = s.
Proof. intros H. unfold Regex.replace_suffix_ci. now rewrite H. Qed.

Variable P : Platform.
Variable file : File.

Lemma filename_svg o :
  resolves_with
    (fun r => Converter.filename r
              = Regex.replace_suffix_ci (name file) ".svg"
                  ("." ++ Converter.format_str (Converter.format o)))
    (Converter.convertSvgToRaster P file o).
Proof. unfold Converter.convertSvgToRaster. walk_result; try reflexivity. discriminate. Qed.

Lemma filename_pdf o :
  resolves_with
    (fun r => Converter.filename r
              = Regex.replace_suffix_ci (name file) ".pdf"
                  ("." ++ Converter.format_str (Converter.format o)))
    (Converter.convertPdfToRaster P file o).
Proof. unfold Converter.convertPdfToRaster. walk_result. reflexivity. Qed.

Lemma no_slash_no_dot (s : string) :
  Regex.no_dot_or_slash s = true -> Regex.no_dot s = true.
Proof.
  unfold Regex.no_dot_or_slash, Regex.no_dot.
  induction s as [|c s IH]; simpl; [reflexivity|].
  rewrite !andb_true_iff, negb_orb, andb_true_iff. intros [[Hc _] Hs]. auto.
Qed.

End NameRules.

(** A file name without a dot is kept as it is by [convertRasterFormat],
    [resizeImage] and the cropper: the output has the name of the input,
    with neither the new extension nor the size or "_cropped" tag. *)
Theorem name_without_extension_is_kept (P : Dom.Platform) (file : Dom.File) :
  Regex.no_dot (Dom.name file) = true ->
  (forall o, Encoder.resolves_with (fun r => Converter.filename r = Dom.name file)
               (Converter.convertRasterFormat P file o))
  /\ (forall o, Encoder.resolves_with (fun r => Resizer.filename r = Dom.name file)
                  (Resizer.resizeImage P file o))
  /\ (forall item crop,
        ImageConverterVue.FileItem.file item = file ->
        exists r,
          ImageConverterVue.FileItem.result
            (ImageConverterVue.handleCropResult item crop)
          = Some (ImageConverterVue.ResizeResult r)
          /\ Resizer.filename r = Dom.name file).
Proof.
  intros Hname. split; [|split].
  - intros o r Hr. rewrite (filename_raster P file o r Hr).
    now apply replace_ext_no_dot.
  - intros o r Hr. destruct (filename_resize P file o r Hr) as (ext & -> & _).
    now apply replace_ext_no_dot.
  - intros item crop <-. eexists. split; [reflexivity|]. simpl.
    now apply replace_ext_no_dot.
Qed.

Lemma name_without_extension_is_kept_witness :
  exists r,
    Dom.outcome
      (Resizer.resizeImage Sample.platform (Sample.file "photo" "image/png")
         (Sample.resizeOptions (Some 400%float) None None None None))
    = Dom.Resolved r
    /\ Resizer.filename r = "photo".
Proof.
  eexists. split; [reflexivity|].
  exact (proj1 (proj2 (name_without_extension_is_kept Sample.platform
                         (Sample.file "photo" "image/png") eq_refl))
           (Sample.resizeOptions (Some 400%float) None None None None) _ eq_refl).
Defined.

(** For a file named [stem.ext], [ext] not empty and free of dots and
    slashes: [convertRasterFormat] names its output [stem.<format>],
    [resizeImage] names it [stem_<width>x<height>.<format>],
    [removeBgFromImage] names it [stem_no-bg.<format>] and the cropper
    [stem_cropped.png], jpeg being written jpg by the first two. *)
Theorem extension_is_replaced (P : Dom.Platform) (file : Dom.File)
    (stem ext : string) :
  Dom.name file = stem ++ "." ++ ext ->
  ext <> "" ->
  Regex.no_dot_or_slash ext = true ->
  (forall o, Encoder.resolves_with
               (fun r => Converter.filename r
                         = stem ++ "." ++ Converter.extension (Converter.format o))
               (Converter.convertRasterFormat P file o))
  /\ (forall o, Encoder.resolves_with
                  (fun r =>
                     exists f,
                       Resizer.filename r
                       = stem ++ "_" ++ JS.toString (Dom.numberToString P) (Resizer.newWidth r)
                              ++ "x" ++ JS.toString (Dom.numberToString P) (Resizer.newHeight r)
                              ++ "." ++ Converter.extension f
                       /\ f = match Resizer.format o with
                              | Some f => f
                              | None => Resizer.getFormatFromFile file
                              end)
                  (Resizer.resizeImage P file o))
  /\ (forall o, Encoder.resolves_with
                  (fun r =>
                     BackgroundRemover.filename r
                     = stem ++ "_no-bg."
                       ++ BackgroundRemover.format_str
                            match BackgroundRemover.format o with
                            | Some f => f
                            | None => BackgroundRemover.png
                            end)
                  (BackgroundRemover.removeBgFromImage P file o))
  /\ (forall item crop,
        ImageConverterVue.FileItem.file item = file ->
        exists r,
          ImageConverterVue.FileItem.result
            (ImageConverterVue.handleCropResult item crop)
          = Some (ImageConverterVue.ResizeResult r)
          /\ Resizer.filename r = stem ++ "_cropped.png").
Proof.
  intros Hname Hne Hext. pose proof (no_slash_no_dot ext Hext) as Hdot.
  split; [|split; [|split]].
  - intros o r Hr. rewrite (filename_raster P file o r Hr), Hname.
    now apply replace_ext_strips.
  - intros o r Hr. destruct (filename_resize P file o r Hr) as (e & -> & ->).
    eexists. split; [|reflexivity]. rewrite Hname. now apply replace_ext_strips.
  - intros o r Hr. rewrite (filename_remove_background P file o r Hr), Hname.
    rewrite replace_ext_noslash_strips by assumption. now rewrite app_empty_r.
  - intros item crop <-. eexists. split; [reflexivity|]. simpl. rewrite Hname.
    now apply replace_ext_strips.
Qed.

Lemma extension_is_replaced_witness :
  exists r,
    Dom.outcome
      (Converter.convertRasterFormat Sample.platform (Sample.file "photo.v2.png" "image/png")
         (Sample.convertOptions Converter.jpeg None None None None))
    = Dom.Resolved r
    /\ Converter.filename r = "photo.v2.jpg".
Proof.
  eexists. split; [reflexivity|].
  exact (proj1 (extension_is_replaced Sample.platform
                  (Sample.file "photo.v2.png" "image/png") "photo.v2" "png"
                  eq_refl ltac:(discriminate) eq_refl)
           (Sample.convertOptions Converter.jpeg None None None None) _ eq_refl).
Defined.


(** Converting a converted file: the name after two raster conversions is
    the name one conversion of the original to the last format gives. *)
Theorem reconverted_name (P P' : Dom.Platform) (file file' : Dom.File)
    (o o' : Converter.ConversionOptions) (log log' : list Dom.Call)
    (r r' : Converter.ConversionResult) :
  Converter.convertRasterFormat P file o = (log, Dom.Resolved r) ->
  Dom.name file' = Converter.filename r ->
  Converter.convertRasterFormat P' file' o' = (log', Dom.Resolved r') ->
  Converter.filename r'
  = Regex.replace_ext (Dom.name file) ("." ++ Converter.extension (Converter.format o')).
Proof.
  intros Hr Hname Hr'.
  assert (H : Converter.filename r
              = Regex.replace_ext (Dom.name file)
                  ("." ++ Converter.extension (Converter.format o))).
  { apply (filename_raster P file o r). unfold Dom.outcome. now rewrite Hr. }
  assert (H' : Converter.filename r'
               = Regex.replace_ext (Dom.name file')
                   ("." ++ Converter.extension (Converter.format o'))).
  { apply (filename_raster P' file' o' r'). unfold Dom.outcome. now rewrite Hr'. }
  rewrite H', Hname, H.
  destruct (no_dot_extension (Converter.format o)) as [Hne Hdot].
  now apply replace_ext_twice.
Qed.

Lemma reconverted_name_witness :
  exists r r',
    Dom.outcome (Converter.convertRasterFormat Sample.platform Sample.photo_png
                   (Sample.convertOptions Converter.webp None None None None))
    = Dom.Resolved r
    /\ Dom.outcome (Converter.convertRasterFormat Sample.platform
                      (Sample.file (Converter.filename r) "image/webp")
                      (Sample.convertOptions Converter.jpeg None None None None))
       = Dom.Resolved r'
    /\ Converter.filename r = "photo.webp"
    /\ Converter.filename r' = "photo.jpg".
Proof.
  eexists _, _. split; [reflexivity|]. split; [reflexivity|]. split; [reflexivity|].
  exact (reconverted_name Sample.platform Sample.platform Sample.photo_png
           (Sample.file "photo.webp" "image/webp")
           (Sample.convertOptions Converter.webp None None None None)
           (Sample.convertOptions Converter.jpeg None None None None)
           _ _ _ _ eq_refl eq_refl eq_refl).
Defined.

(** The SVG, PDF and HEIC decoders replace only their own extension, in any
    case, by the format as it is written in the options (jpeg stays jpeg);
    a name that does not end with it is kept as it is. *)
Theorem decoder_extension_rule (P : Dom.Platform) (file : Dom.File)
    (o : Converter.ConversionOptions) :
  let by_ := "." ++ Converter.format_str (Converter.format o) in
  let rule (suffix : string) (r : Converter.ConversionResult) :=
    (forall stem tail,
       Dom.name file = stem ++ tail -> JS.toLowerCase tail = suffix ->
       Converter.filename r = stem ++ by_)
    /\ (JS.endsWith (JS.toLowerCase (Dom.name file)) suffix = false ->
        Converter.filename r = Dom.name file) in
  Encoder.resolves_with (rule ".svg") (Converter.convertSvgToRaster P file o)
  /\ Encoder.resolves_with (rule ".pdf") (Converter.convertPdfToRaster P file o)
  /\ Encoder.resolves_with (rule ".heic") (Converter.convertHeicToRaster P file o).
Proof.
  intros by_ rule.
  assert (H : forall suffix r,
             Converter.filename r = Regex.replace_suffix_ci (Dom.name file) suffix by_ ->
             rule suffix r).
  { intros suffix r Hf. unfold rule. rewrite Hf. split.
    - intros stem tail -> Ht. now apply replace_suffix_ci_strips.
    - apply replace_suffix_ci_other. }
  split; [|split]; intros r Hr; apply H.
  - exact (filename_svg P file o r Hr).
  - exact (filename_pdf P file o r Hr).
  - exact (filename_heic P file o r Hr).
Qed.

Lemma decoder_extension_rule_witness :
  exists r,
    Dom.outcome
      (Converter.convertSvgToRaster Sample.platform (Sample.file "Logo.SVG" "image/svg+xml")
         (Sample.convertOptions Converter.jpeg None None None None))
    = Dom.Resolved r
    /\ Converter.filename r = "Logo.jpeg".
Proof.
  eexists. split; [reflexivity|].
  exact (proj1 (proj1 (decoder_extension_rule Sample.platform
                         (Sample.file "Logo.SVG" "image/svg+xml")
                         (Sample.convertOptions Converter.jpeg None None None None))
                  _ eq_refl)
           "Logo" ".SVG" eq_refl eq_refl).
Defined.

(** ** The application: ladder, processing, presets *)

Section Ladder.

Import JS ImageConverterVue.

Lemma rung_of_level (level : number) :
  exists i,
    nth_error settings i = Some (getCompressionSettings level)
    /\ nth_error labels i = Some (getCompressionLabel level).
Proof.
  unfold getCompressionSettings, getCompressionLabel.
  destruct (to_integer (level - 1)) as [i|]; [|now exists 2%nat].
  destruct (0 <=? i)%Z; [|now exists 2%nat].
  destruct (Z.to_nat i) as [|[|[|[|[|n]]]]] eqn:E; simpl.
  - now exists 0%nat.
  - now exists 1%nat.
  - now exists 2%nat.
  - now exists 3%nat.
  - now exists 4%nat.
  - exists 2%nat. split; [|now destruct n]. now destruct n.
Qed.

(** A level whose predecessor is the index [i] of a rung gets that rung. *)
Lemma rung_at_index (level : number) (i : nat) :
  to_integer (level - 1) = Some (Z.of_nat i) -> (i < 5)%nat ->
  nth_error settings i = Some (getCompressionSettings level)
  /\ nth_error labels i = Some (getCompressionLabel level).
Proof.
  intros H Hi. unfold getCompressionSettings, getCompressionLabel. rewrite H.
  assert (E : (0 <=? Z.of_nat i)%Z = true) by (apply Z.leb_le; lia).
  rewrite E, Nat2Z.id.
  destruct i as [|[|[|[|[|n]]]]]; [split; reflexivity .. | lia].
Qed.

(** A level whose predecessor is the index of no rung gets the default. *)
Lemma rung_default (level : number) :
  (forall i, (i < 5)%nat -> to_integer (level - 1) <> Some (Z.of_nat i)) ->
  getCompressionSettings level = {| maxSizeMB := 2; quality := 0.75 |}
  /\ getCompressionLabel level = "Balanced".
Proof.
  intros H. unfold getCompressionSettings, getCompressionLabel.
  destruct (to_integer (level - 1)) as [z|]; [|split; reflexivity].
  destruct (0 <=? z)%Z eqn:E; [|split; reflexivity].
  apply Z.leb_le in E.
  destruct (Z.to_nat z) as [|[|[|[|[|n]]]]] eqn:En; [..|split; now destruct n].
  all: exfalso; apply (H (Z.to_nat z)); [lia | now rewrite Z2Nat.id].
Qed.

End Ladder.

(** Whatever number the level is (out of range, fractional, NaN), the
    settings and the label are those of one and the same rung of the ladder:
    the rung at the index [level - 1] when that is the index of one of the
    five rungs, and otherwise the default, which is the rung Balanced
    ([maxSizeMB] 2, [quality] 0.75).  So the levels 1 to 5 of the slider get
    the five rungs in order.  The quality of the settings lies in [0,1],
    and neither value is one that [||] would replace. *)
Theorem compression_settings_always_valid (level : JS.number) :
  (exists i,
     nth_error ImageConverterVue.settings i
     = Some (ImageConverterVue.getCompressionSettings level)
     /\ nth_error ImageConverterVue.labels i
        = Some (ImageConverterVue.getCompressionLabel level))
  /\ Encoder.in_unit_range
       (ImageConverterVue.quality (ImageConverterVue.getCompressionSettings level)) = true
  /\ JS.truthy (ImageConverterVue.quality (ImageConverterVue.getCompressionSettings level))
     = true
  /\ JS.truthy (ImageConverterVue.maxSizeMB (ImageConverterVue.getCompressionSettings level))
     = true
  /\ (forall i, JS.to_integer (level - 1) = Some (Z.of_nat i) -> (i < 5)%nat ->
        nth_error ImageConverterVue.settings i
        = Some (ImageConverterVue.getCompressionSettings level)
        /\ nth_error ImageConverterVue.labels i
           = Some (ImageConverterVue.getCompressionLabel level))
  /\ ((forall i, (i < 5)%nat -> JS.to_integer (level - 1) <> Some (Z.of_nat i)) ->
      ImageConverterVue.getCompressionSettings level
      = {| ImageConverterVue.maxSizeMB := 2; ImageConverterVue.quality := 0.75 |}
      /\ ImageConverterVue.getCompressionLabel level = "Balanced")
  /\ map ImageConverterVue.getCompressionSettings [1; 2; 3; 4; 5]%float
     = ImageConverterVue.settings
  /\ map ImageConverterVue.getCompressionLabel [1; 2; 3; 4; 5]%float
     = ImageConverterVue.labels.
Proof.
  destruct (rung_of_level level) as (i & Hs & Hl). split; [now exists i|].
  split; [|split; [|split; [|split; [|split; [|split]]]]].
  1-3: destruct i as [|[|[|[|[|n]]]]]; simpl in Hs; try (now destruct n);
    injection Hs as <-; reflexivity.
  - apply rung_at_index.
  - apply rung_default.
  - vm_compute. reflexivity.
  - vm_compute. reflexivity.
Qed.

(** The levels 0, 6, 2.5 and NaN are the index of no rung and get
    Balanced. *)
Lemma compression_settings_always_valid_witness :
  Forall
    (fun level =>
       ImageConverterVue.getCompressionSettings level
       = {| ImageConverterVue.maxSizeMB := 2; ImageConverterVue.quality := 0.75 |}
       /\ ImageConverterVue.getCompressionLabel level = "Balanced")
    [0%float; 6%float; 2.5%float; PrimFloat.nan].
Proof.
  repeat (apply Forall_cons; [|]); [..|apply Forall_nil].
  all: match goal with
       | |- ImageConverterVue.getCompressionSettings ?level = _ /\ _ =>
           apply (proj1 (proj2 (proj2 (proj2 (proj2 (proj2
                    (compression_settings_always_valid level)))))));
           intros i Hi H; remember (Z.of_nat i) as z eqn:Ez;
           vm_compute in H; try discriminate; injection H as H; lia
       end.
Defined.

Section Processing.

Import JS Dom Encoder ImageConverterVue.

Variable P : Platform.

Lemma runMode_errors (item : FileItem.t) : rejects_with proper_error (runMode P item).
Proof.
  unfold runMode.
  destruct (FileItem.mode item); cbv zeta;
    (apply rejects_bind; [|intros; apply rejects_resolve]);
    auto using errors_convert, errors_compress, errors_resize, errors_remove_background.
Qed.

Lemma processFile_calls (item : FileItem.t) :
  calls (processFile P item)
  = calls (runMode P (FileItem.set_status true None (FileItem.result item) item)).
Proof.
  unfold processFile. cbv zeta.
  now destruct (runMode P _) as [l [r | [msg|] |]].
Qed.

(** The outcome of [processFile], read off the operation it ran. *)
Lemma processFile_outcome (item : FileItem.t) :
  match outcome (processFile P item) with
  | Resolved item' =>
      FileItem.processing item' = false
      /\ FileItem.file item' = FileItem.file item
      /\ FileItem.mode item' = FileItem.mode item
      /\ ((exists r, FileItem.result item' = Some r /\ FileItem.error item' = None)
          \/ (exists message,
                FileItem.error item' = Some message /\ message <> ""
                /\ FileItem.result item' = FileItem.result item))
  | Rejected _ => False
  | Pending => True
  end.
Proof.
  pose proof (runMode_errors (FileItem.set_status true None (FileItem.result item) item))
    as He.
  unfold processFile, outcome. cbv zeta. unfold rejects_with, outcome in He.
  destruct (runMode P _) as [l [r | [msg|] |]]; simpl in *; auto.
  - repeat split; auto. left. now exists r.
  - destruct (He _ eq_refl) as (m & Hm & Hne). injection Hm as <-.
    repeat split; auto. right. now exists msg.
  - destruct (He _ eq_refl) as (m & Hm & _). discriminate.
Qed.

Lemma processFile_processed (item item' : FileItem.t) :
  outcome (processFile P item) = Resolved item' -> unprocessed item' = false.
Proof.
  intros H. pose proof (processFile_outcome item) as Ho. rewrite H in Ho.
  destruct Ho as (_ & _ & _ & [(r & Hr & _) | (m & Hm & Hne & _)]);
    unfold unprocessed.
  - now rewrite Hr.
  - rewrite Hm. destruct (FileItem.result item'); [reflexivity|].
    destruct m; [now elim Hne | reflexivity].
Qed.

Lemma processAll_result (files : list FileItem.t) :
  resolves_with
    (fun files' =>
       Forall2 (fun f f' => FileItem.file f' = FileItem.file f
                            /\ unprocessed f' = false
                            /\ (unprocessed f = false -> f' = f))
         files files')
    (processAll P files).
Proof.
  induction files as [|f rest IH]; cbn [processAll].
  - apply resolves_resolve. constructor.
  - destruct (unprocessed f) eqn:Hu.
    + apply resolves_bind. intros f' Hf'.
      apply resolves_bind. intros rest' Hrest'.
      apply resolves_resolve. constructor; [|now apply IH].
      pose proof (processFile_outcome f) as Ho. rewrite Hf' in Ho.
      repeat split; [tauto | now apply (processFile_processed f) | congruence].
    + apply resolves_bind. intros rest' Hrest'.
      apply resolves_resolve. constructor; [|now apply IH]. auto.
Qed.

End Processing.

(** [processFile] never rejects.  When it returns, the item is no longer
    processing, and either it holds a result and no error, or an error
    message that is not empty and the result it held before. *)
Theorem processFile_records_outcome (P : Dom.Platform)
    (item : ImageConverterVue.FileItem.t) :
  match Dom.outcome (ImageConverterVue.processFile P item) with
  | Dom.Resolved item' =>
      ImageConverterVue.FileItem.processing item' = false
      /\ ImageConverterVue.FileItem.file item' = ImageConverterVue.FileItem.file item
      /\ ImageConverterVue.FileItem.mode item' = ImageConverterVue.FileItem.mode item
      /\ ((exists r, ImageConverterVue.FileItem.result item' = Some r
                     /\ ImageConverterVue.FileItem.error item' = None)
          \/ (exists message,
                ImageConverterVue.FileItem.error item' = Some message
                /\ message <> ""
                /\ ImageConverterVue.FileItem.result item'
                   = ImageConverterVue.FileItem.result item))
  | Dom.Rejected _ => False
  | Dom.Pending => True
  end.
Proof. apply processFile_outcome. Qed.

(** When [processAll] returns, the items are the same files in the same
    order, those that held a result or an error before are unchanged, and
    every item holds a result or an error: [allProcessed] is true unless
    the list is empty. *)
Theorem processAll_processes_everything (P : Dom.Platform)
    (files files' : list ImageConverterVue.FileItem.t) (log : list Dom.Call) :
  ImageConverterVue.processAll P files = (log, Dom.Resolved files') ->
  Forall2 (fun f f' =>
             ImageConverterVue.FileItem.file f' = ImageConverterVue.FileItem.file f
             /\ (ImageConverterVue.unprocessed f = false -> f' = f))
    files files'
  /\ (files <> [] -> ImageConverterVue.allProcessed files' = true).
Proof.
  intros Hrun.
  assert (H : Forall2 (fun f f' =>
                ImageConverterVue.FileItem.file f' = ImageConverterVue.FileItem.file f
                /\ ImageConverterVue.unprocessed f' = false
                /\ (ImageConverterVue.unprocessed f = false -> f' = f)) files files').
  { apply (processAll_result P files files'). unfold Dom.outcome. now rewrite Hrun. }
  clear Hrun. split.
  - induction H; constructor; tauto.
  - intros Hne. unfold ImageConverterVue.allProcessed. apply andb_true_iff. split.
    + destruct H; [now elim Hne | reflexivity].
    + clear Hne. induction H; simpl; [reflexivity|].
      destruct H as (_ & -> & _). exact IHForall2.
Qed.

Lemma processAll_processes_everything_witness :
  let files :=
    [ ImageConverterVue.newFileItem Sample.platform "a" ImageConverterVue.compress
        Sample.photo_png;
      ImageConverterVue.newFileItem Sample.platform "b" ImageConverterVue.convert
        Sample.notes_txt ] in
  ImageConverterVue.allProcessed files = false
  /\ exists files',
       Dom.outcome (ImageConverterVue.processAll Sample.platform files)
       = Dom.Resolved files'
       /\ ImageConverterVue.allProcessed files' = true
       /\ map ImageConverterVue.FileItem.error files'
          = [None; Some "Unsupported file type: text/plain"].
Proof.
  intros files. split; [reflexivity|]. eexists. split; [reflexivity|].
  split; [|reflexivity].
  apply (processAll_processes_everything Sample.platform files _ _ eq_refl).
  discriminate.
Defined.

Lemma compression_settings_facts (level : JS.number) :
  Encoder.in_unit_range
    (ImageConverterVue.quality (ImageConverterVue.getCompressionSettings level)) = true
  /\ JS.truthy (ImageConverterVue.quality (ImageConverterVue.getCompressionSettings level))
     = true
  /\ JS.truthy (ImageConverterVue.maxSizeMB (ImageConverterVue.getCompressionSettings level))
     = true.
Proof.
  destruct (rung_of_level level) as (i & Hs & _).
  destruct i as [|[|[|[|[|n]]]]]; simpl in Hs; try (now destruct n);
    injection Hs as <-; repeat split; reflexivity.
Qed.

Section CompressMode.

Import JS Dom Encoder ImageConverterVue.

Variable P : Platform.

(** What [processFile] hands the compressor in compress mode. *)
Lemma compress_mode_config (item : FileItem.t) :
  FileItem.mode item = compress ->
  all_calls
    (fun c =>
       forall f cfg, c = ImageCompression f cfg ->
         let rung := getCompressionSettings (FileItem.compressionLevel item) in
         f = FileItem.file item
         /\ cfg_maxSizeMB cfg = maxSizeMB rung
         /\ cfg_initialQuality cfg = quality rung
         /\ cfg_maxWidthOrHeight cfg = FileItem.maxWidthOrHeight item
         /\ in_unit_range (cfg_initialQuality cfg) = true)
    (processFile P item).
Proof.
  intros Hmode. unfold all_calls. rewrite processFile_calls.
  unfold runMode. cbn [FileItem.mode FileItem.set_status]. rewrite Hmode.
  cbn [FileItem.compressionLevel FileItem.file FileItem.maxWidthOrHeight].
  destruct (compression_settings_facts (FileItem.compressionLevel item))
    as (Hq & Htq & Htm).
  fold (@all_calls Result). unfold Compressor.compressImage. walk_calls.
  intros f cfg Hc. injection Hc as <- <-. cbv zeta.
  cbn [cfg_maxSizeMB cfg_initialQuality cfg_maxWidthOrHeight Compressor.maxSizeMB
       Compressor.quality Compressor.maxWidthOrHeight].
  unfold or_default. rewrite Htq, Htm. auto.
Qed.

End CompressMode.

(** In compress mode [processFile] hands the compressor the rung of the
    item's compression level, unchanged, with the item's maxWidthOrHeight:
    the quality it passes lies in [0,1] whatever the level and whatever
    the quality field of the item; no surface is drawn or encoded. *)
Theorem compress_mode_uses_the_ladder (P : Dom.Platform)
    (item : ImageConverterVue.FileItem.t) :
  ImageConverterVue.FileItem.mode item = ImageConverterVue.compress ->
  Encoder.all_calls
    (fun c =>
       forall f cfg, c = Dom.ImageCompression f cfg ->
         let rung :=
           ImageConverterVue.getCompressionSettings
             (ImageConverterVue.FileItem.compressionLevel item) in
         f = ImageConverterVue.FileItem.file item
         /\ Dom.cfg_maxSizeMB cfg = ImageConverterVue.maxSizeMB rung
         /\ Dom.cfg_initialQuality cfg = ImageConverterVue.quality rung
         /\ Dom.cfg_maxWidthOrHeight cfg
            = ImageConverterVue.FileItem.maxWidthOrHeight item
         /\ Encoder.in_unit_range (Dom.cfg_initialQuality cfg) = true)
    (ImageConverterVue.processFile P item)
  /\ Encoder.all_calls (fun c => Encoder.call_surface c = None)
       (ImageConverterVue.processFile P item).
Proof.
  intros Hmode. split; [now apply compress_mode_config|].
  unfold Encoder.all_calls. rewrite processFile_calls.
  unfold ImageConverterVue.runMode. cbn [ImageConverterVue.FileItem.mode
    ImageConverterVue.FileItem.set_status]. rewrite Hmode.
  fold (@Encoder.all_calls ImageConverterVue.Result).
  unfold Compressor.compressImage. walk_calls. reflexivity.
Qed.

Lemma compress_mode_uses_the_ladder_witness :
  let item :=
    ImageConverterVue.newFileItem Sample.platform "a" ImageConverterVue.compress
      Sample.photo_png in
  Encoder.all_calls
    (fun c =>
       forall f cfg, c = Dom.ImageCompression f cfg ->
         let rung :=
           ImageConverterVue.getCompressionSettings
             (ImageConverterVue.FileItem.compressionLevel item) in
         f = ImageConverterVue.FileItem.file item
         /\ Dom.cfg_maxSizeMB cfg = ImageConverterVue.maxSizeMB rung
         /\ Dom.cfg_initialQuality cfg = ImageConverterVue.quality rung
         /\ Dom.cfg_maxWidthOrHeight cfg
            = ImageConverterVue.FileItem.maxWidthOrHeight item
         /\ Encoder.in_unit_range (Dom.cfg_initialQuality cfg) = true)
    (ImageConverterVue.processFile Sample.platform item).
Proof.
  exact (proj1 (compress_mode_uses_the_ladder Sample.platform
                  (ImageConverterVue.newFileItem Sample.platform "a"
                     ImageConverterVue.compress Sample.photo_png) eq_refl)).
Defined.

(** A file just added and compressed as it is: the compressor is given the
    Balanced rung, whatever the size of the file. *)
Theorem new_item_is_compressed_balanced (P : Dom.Platform) (id : string)
    (file : Dom.File) :
  let item := ImageConverterVue.newFileItem P id ImageConverterVue.compress file in
  ImageConverterVue.unprocessed item = true
  /\ ImageConverterVue.FileItem.processing item = false
  /\ In (ImageConverterVue.FileItem.maxSizeMB item) [0.5; 1; 2; 3]%float
  /\ ImageConverterVue.getCompressionLabel
       (ImageConverterVue.FileItem.compressionLevel item) = "Balanced"
  /\ Dom.calls (ImageConverterVue.processFile P item)
     = [Dom.ImageCompression file
          {| Dom.cfg_maxSizeMB := 2; Dom.cfg_maxWidthOrHeight := None;
             Dom.cfg_useWebWorker := true; Dom.cfg_initialQuality := 0.75;
             Dom.cfg_preserveExif := true |}].
Proof.
  intros item. split; [reflexivity|]. split; [reflexivity|]. split.
  { unfold item, ImageConverterVue.newFileItem, Compressor.getRecommendedSettings.
    cbn [ImageConverterVue.FileItem.maxSizeMB]. cbv zeta.
    repeat match goal with |- context [if ?b then _ else _] => destruct b end;
      cbn [Compressor.maxSizeMB]; cbv; auto. }
  split; [reflexivity|].
  rewrite processFile_calls. unfold item, ImageConverterVue.newFileItem.
  unfold ImageConverterVue.runMode.
  cbn [ImageConverterVue.FileItem.mode ImageConverterVue.FileItem.set_status
       ImageConverterVue.FileItem.compressionLevel ImageConverterVue.FileItem.file
       ImageConverterVue.FileItem.maxWidthOrHeight].
  change (ImageConverterVue.getCompressionSettings 3)
    with {| ImageConverterVue.maxSizeMB := 2; ImageConverterVue.quality := 0.75 |}.
  unfold Compressor.compressImage.
  cbn [Compressor.maxSizeMB Compressor.quality Compressor.maxWidthOrHeight
       Compressor.useWebWorker Compressor.preserveExif Compressor.not_false
       ImageConverterVue.maxSizeMB ImageConverterVue.quality].
  change (JS.or_default (Some 2%float) 1) with 2%float.
  change (JS.or_default (Some 0.75%float) 0.8) with 0.75%float.
  unfold Dom.rethrow, Dom.bind, Dom.perform, Dom.resolve, Dom.calls.
  now destruct (Dom.imageCompression P file _) as [r | [msg|] |].
Qed.

Section Presets.

Import JS ImageConverterVue.

Lemma preset_dimensions (item : FileItem.t) (p : Resizer.ResizePreset.t) :
  In p Resizer.RESIZE_PRESETS ->
  FileItem.resizePreset item = Resizer.ResizePreset.name p ->
  let item' := handlePresetChange item in
  truthy_opt (FileItem.resizeWidth item') = true
  /\ truthy_opt (FileItem.resizeHeight item') = true
  /\ (Resizer.ResizePreset.name p <> "Custom" ->
      FileItem.resizeWidth item' = Resizer.ResizePreset.width p
      /\ FileItem.resizeHeight item' = Resizer.ResizePreset.height p)
  /\ (Resizer.ResizePreset.name p = "Custom" ->
      FileItem.resizeWidth item'
      = (if truthy_opt (FileItem.resizeWidth item)
         then FileItem.resizeWidth item else Some 1920%float)
      /\ FileItem.resizeHeight item'
         = (if truthy_opt (FileItem.resizeHeight item)
            then FileItem.resizeHeight item else Some 1080%float)).
Proof.
  intros Hin Hname. unfold handlePresetChange. rewrite Hname.
  cbn [In Resizer.RESIZE_PRESETS] in Hin.
  repeat (destruct Hin as [<- | Hin];
          [ cbn; repeat split; try reflexivity; try (intros; congruence);
            try (destruct (truthy_opt (FileItem.resizeWidth item)) eqn:E; [exact E | reflexivity]);
            try (destruct (truthy_opt (FileItem.resizeHeight item)) eqn:E; [exact E | reflexivity])
          | ]).
  contradiction.
Qed.

End Presets.

(** After [handlePresetChange] with the name of a preset of the table, the
    item has both a width and a height (neither 0 nor NaN): those of the
    preset, and for Custom the ones it had, 1920 and 1080 standing in for a
    missing one. *)
Theorem preset_sets_both_dimensions (item : ImageConverterVue.FileItem.t)
    (p : Resizer.ResizePreset.t) :
  In p Resizer.RESIZE_PRESETS ->
  ImageConverterVue.FileItem.resizePreset item = Resizer.ResizePreset.name p ->
  let item' := ImageConverterVue.handlePresetChange item in
  JS.truthy_opt (ImageConverterVue.FileItem.resizeWidth item') = true
  /\ JS.truthy_opt (ImageConverterVue.FileItem.resizeHeight item') = true
  /\ (Resizer.ResizePreset.name p <> "Custom" ->
      ImageConverterVue.FileItem.resizeWidth item' = Resizer.ResizePreset.width p
      /\ ImageConverterVue.FileItem.resizeHeight item' = Resizer.ResizePreset.height p)
  /\ (Resizer.ResizePreset.name p = "Custom" ->
      ImageConverterVue.FileItem.resizeWidth item'
      = (if JS.truthy_opt (ImageConverterVue.FileItem.resizeWidth item)
         then ImageConverterVue.FileItem.resizeWidth item else Some 1920%float)
      /\ ImageConverterVue.FileItem.resizeHeight item'
         = (if JS.truthy_opt (ImageConverterVue.FileItem.resizeHeight item)
            then ImageConverterVue.FileItem.resizeHeight item else Some 1080%float)).
Proof. apply preset_dimensions. Qed.

Lemma preset_sets_both_dimensions_witness :
  let item :=
    ImageConverterVue.newFileItem Sample.platform "a" ImageConverterVue.resize
      Sample.photo_png in
  let custom := ImageConverterVue.handlePresetChange item in
  (ImageConverterVue.FileItem.resizeWidth custom,
   ImageConverterVue.FileItem.resizeHeight custom)
  = (Some 1920%float, Some 1080%float).
Proof.
  intros item custom.
  destruct (preset_sets_both_dimensions item
              {| Resizer.ResizePreset.name := "Custom";
                 Resizer.ResizePreset.width := None;
                 Resizer.ResizePreset.height := None |})
    as (_ & _ & _ & Hc).
  - cbn. auto 10.
  - reflexivity.
  - destruct (Hc eq_refl) as [Hw Hh]. fold custom in Hw, Hh.
    now rewrite Hw, Hh.
Defined.

Section RemoveBackground.

Import JS Dom Encoder.

Variable P : Platform.
Variable file : File.

Lemma remove_background_quality (f : option BackgroundRemover.Format) (q : option number) :
  all_calls
    (quality_is match q with Some q => q | None => 0.95%float end)
    (BackgroundRemover.removeBgFromImage P file
       {| BackgroundRemover.format := f; BackgroundRemover.quality := q |}).
Proof.
  unfold BackgroundRemover.removeBgFromImage, Converter.encode.
  cbn [BackgroundRemover.quality BackgroundRemover.format].
  walk_calls; intros ? Hq; simpl in Hq; congruence.
Qed.

Lemma remove_background_png (o : BackgroundRemover.BackgroundRemovalOptions) (b : Blob) :
  BackgroundRemover.format o = None
  \/ BackgroundRemover.format o = Some BackgroundRemover.png ->
  removeBackground P file = Resolved b ->
  type b = "image/png" ->
  calls (BackgroundRemover.removeBgFromImage P file o) = [RemoveBackground file]
  /\ exists r,
       outcome (BackgroundRemover.removeBgFromImage P file o) = Resolved r
       /\ BackgroundRemover.blob r = b.
Proof.
  intros Hf Hb Ht. unfold BackgroundRemover.removeBgFromImage.
  assert (Hfmt : match BackgroundRemover.format o with
                 | Some f => f
                 | None => BackgroundRemover.png
                 end = BackgroundRemover.png)
    by (destruct Hf as [-> | ->]; reflexivity).
  cbv zeta. rewrite Hfmt, Hb.
  unfold perform, bind, rethrow, resolve, calls, outcome. cbn [negb orb].
  rewrite Ht. cbn. split; [reflexivity|]. eexists. split; reflexivity.
Qed.

End RemoveBackground.

(** [removeBgFromImage] hands the encoder the quality as given, 0 and NaN
    included, and 0.95 only when no quality is given. *)
Theorem remove_background_quality_as_given (P : Dom.Platform) (file : Dom.File)
    (f : option BackgroundRemover.Format) :
  (forall q,
     Encoder.all_calls (Encoder.quality_is q)
       (BackgroundRemover.removeBgFromImage P file
          {| BackgroundRemover.format := f; BackgroundRemover.quality := Some q |}))
  /\ Encoder.all_calls (Encoder.quality_is 0.95)
       (BackgroundRemover.removeBgFromImage P file
          {| BackgroundRemover.format := f; BackgroundRemover.quality := None |}).
Proof.
  split.
  - intros q. exact (remove_background_quality P file f (Some q)).
  - exact (remove_background_quality P file f None).
Qed.

(** When the format is png (or absent) and the segmenter returns a PNG blob,
    [removeBgFromImage] calls nothing but the segmenter and returns that
    blob: no surface, no encoder. *)
Theorem remove_background_png_is_not_reencoded (P : Dom.Platform) (file : Dom.File)
    (o : BackgroundRemover.BackgroundRemovalOptions) (b : Dom.Blob) :
  BackgroundRemover.format o = None
  \/ BackgroundRemover.format o = Some BackgroundRemover.png ->
  Dom.removeBackground P file = Dom.Resolved b ->
  Dom.type b = "image/png" ->
  Dom.calls (BackgroundRemover.removeBgFromImage P file o) = [Dom.RemoveBackground file]
  /\ exists r,
       Dom.outcome (BackgroundRemover.removeBgFromImage P file o) = Dom.Resolved r
       /\ BackgroundRemover.blob r = b.
Proof. apply remove_background_png. Qed.

Lemma remove_background_png_is_not_reencoded_witness :
  Dom.calls
    (BackgroundRemover.removeBgFromImage Sample.platform Sample.photo_png
       {| BackgroundRemover.format := None; BackgroundRemover.quality := Some 0%float |})
  = [Dom.RemoveBackground Sample.photo_png].
Proof.
  exact (proj1 (remove_background_png_is_not_reencoded Sample.platform Sample.photo_png
                  {| BackgroundRemover.format := None;
                     BackgroundRemover.quality := Some 0%float |}
                  _ (or_introl eq_refl) eq_refl eq_refl)).
Defined.

(** When [btoa] throws on the text of an SVG file, the promise of
    [convertSvgToRaster] is neither fulfilled nor rejected, and so is that
    of [convertImage] on a file detected as SVG. *)
Theorem svg_unencodable_text_never_settles (P : Dom.Platform) (file : Dom.File)
    (o : Converter.ConversionOptions) (text : string) :
  Dom.readAsText P file = Some text ->
  Dom.btoa P text = None ->
  Converter.convertSvgToRaster P file o = ([], Dom.Pending)
  /\ (FormatDetector.detect file = FormatDetector.Vector ->
      Converter.convertImage P file o = ([], Dom.Pending)).
Proof.
  intros Hread Hbtoa.
  assert (H : Converter.convertSvgToRaster P file o = ([], Dom.Pending)).
  { unfold Converter.convertSvgToRaster. now rewrite Hread, Hbtoa. }
  split; [exact H|]. intros Hk. now rewrite convertImage_dispatch, Hk.
Qed.

Lemma svg_unencodable_text_never_settles_witness :
  Converter.convertImage Sample.throwing_btoa (Sample.file "logo.svg" "image/svg+xml")
    (Sample.convertOptions Converter.png None None None None)
  = ([], Dom.Pending).
Proof.
  exact (proj2 (svg_unencodable_text_never_settles Sample.throwing_btoa
                  (Sample.file "logo.svg" "image/svg+xml")
                  (Sample.convertOptions Converter.png None None None None)
                  "<svg/>" eq_refl eq_refl) eq_refl).
Defined.
